(** * Basis: payment gate, chain verifier and witness signer

    A shallow embedding of the payment-verification and witnessing code of
    the Basis edge workers:

    - [middleware/x402-mock.ts] and [middleware/x402.ts] (the payment gate,
      both bundled in [src/index-scan.ts]),
    - [tools/witness*.ts] (the witness signers),
    - the [/verify_url] route of [src/index.ts],
    - [utils/security.ts] and [tools/fetch.ts] (the URL check and the
      fetching tool),
    - the cache worker ([src/index-cache.ts], [tools/cache.ts]) and the
      timestamping worker ([src/index-hash.ts], [tools/hash.ts]).

    JavaScript strings are Rocq [string]s, one [ascii] per code unit, so
    strings of code units below 256 (an HTTP header value is a byte
    string, so nothing is lost on the Authorization header).
    [undefined] is [None].  The Cloudflare KV namespace is one finite
    map with per-key expiry, read and written in program order; its
    operations may throw.  What the code obtains from the [viem] library
    and from the Base RPC endpoint is taken as a parameter.  The
    requests [performFetch] sends are recorded in the order they go
    out. *)

From stdpp Require Import gmap strings list pretty relations.
From Stdlib Require Import ZArith Ascii String.

Local Open Scope string_scope.
Local Open Scope Z_scope.
Local Open Scope list_scope.

(** ** JavaScript string primitives *)

Module Js.

(** [s.startsWith(p)] *)
Fixpoint startsWith (p s : string) : bool :=
  match p, s with
  | EmptyString, _ => true
  | String a p', String b s' => bool_decide (a = b) && startsWith p' s'
  | String _ _, EmptyString => false
  end.

(** [s.length] *)
Definition length (s : string) : Z := Z.of_nat (String.length s).

(** [s.includes(p)] *)
Fixpoint includes (p s : string) : bool :=
  startsWith p s ||
  match s with
  | EmptyString => false
  | String _ s' => includes p s'
  end.

Definition code (c : ascii) : N := Ascii.N_of_ascii c.

Definition in_range (lo hi : N) (c : ascii) : bool :=
  ((lo <=? code c) && (code c <=? hi))%N.

(** One code unit of [toLowerCase()], for code units below 256: the
    letters A-Z and the Latin-1 capitals U+00C0..U+00DE (U+00D7, the
    multiplication sign, apart) move up by 32. *)
Definition lower_char (c : ascii) : ascii :=
  if in_range 65 90 c
     || (in_range 192 222 c && negb (code c =? 215)%N)
  then Ascii.ascii_of_N (code c + 32)
  else c.

(** [s.toLowerCase()] *)
Fixpoint toLowerCase (s : string) : string :=
  match s with
  | EmptyString => EmptyString
  | String c s' => String (lower_char c) (toLowerCase s')
  end.

(** Case folding of a regular expression with the [i] flag and without
    the [u] flag (ECMAScript Canonicalize): a character is compared by
    its upper case, except that a character at or above 128 is never
    folded onto one below 128.  The patterns of this code base are
    ASCII, so only a-z fold. *)
Definition canonicalize (c : ascii) : ascii :=
  if in_range 97 122 c then Ascii.ascii_of_N (code c - 32) else c.

(** [/^p/i.test(s)] for a literal pattern [p]. *)
Fixpoint startsWith_ci (p s : string) : bool :=
  match p, s with
  | EmptyString, _ => true
  | String a p', String b s' =>
      bool_decide (canonicalize a = canonicalize b) && startsWith_ci p' s'
  | String _ _, EmptyString => false
  end.

(** The character class [[0-9a-fA-F]]. *)
Definition is_hex (c : ascii) : bool :=
  in_range 48 57 c || in_range 97 102 c || in_range 65 70 c.

Fixpoint all_hex (s : string) : bool :=
  match s with
  | EmptyString => true
  | String c s' => is_hex c && all_hex s'
  end.

(** [/^0x[0-9a-fA-F]{64}$/.test(s)]: no [m] flag, so [$] is the end
    of the input. *)
Definition hexPattern_test (s : string) : bool :=
  startsWith "0x" s &&
  match s with
  | String _ (String _ rest) => (String.length rest =? 64)%nat && all_hex rest
  | _ => false
  end.

(** JavaScript truthiness of a [string | undefined]: [!v] holds for
    [undefined] and for the empty string. *)
Definition falsy (v : option string) : bool :=
  match v with
  | None => true
  | Some s => bool_decide (s = "")
  end.

(** [v || d] on strings. *)
Definition or_default (v : option string) (d : string) : string :=
  match v with
  | Some s => if bool_decide (s = "") then d else s
  | None => d
  end.

(** The double-quote character, for template literals that contain it. *)
Definition dquote : string := String (Ascii.ascii_of_N 34) EmptyString.

End Js.

(** ** Thrown errors and results *)

Record JsError := { name : string; message : string }.

(** The result of a call that may throw. *)
Inductive Outcome (A : Type) :=
| Ret (a : A)
| Throw (e : JsError).
Arguments Ret {A} a.
Arguments Throw {A} e.

Definition Error (msg : string) : JsError := {| name := "Error"; message := msg |}.

(** ** What the code obtains from [viem] *)

(** An event log of a transaction receipt. *)
Record Log := { address : string; topics : list string; data : string }.

(** The result of [decodeEventLog] for the ERC20 Transfer ABI. *)
Record DecodedEvent := {
  eventName : string;
  args_from : string;
  args_to : string;
  args_value : Z }.

Record Receipt := { status : string; logs : list Log }.

(** [client.getTransactionReceipt] resolves to a receipt or rejects. *)
Inductive RpcResult :=
| RpcReceipt (r : Receipt)
| RpcThrows (e : JsError).

(** A local account: its address and its raw-hash signing function. *)
Record Account := { account_address : string; account_sign : string -> string }.

(** The library functions the code calls.  [decodeEventLog], given the
    data and the topics of a log (the ABI is fixed), throws when they do
    not match the ABI ([None]: the caller discards the error);
    [privateKeyToAccount] throws on a key it cannot use. *)
Class Viem := {
  decodeEventLog : string -> list string -> option DecodedEvent;
  privateKeyToAccount : string -> Outcome Account;
  (** [keccak256(toHex(payload))] *)
  keccak256_of : string -> string }.

(** The Base RPC endpoint: what [getTransactionReceipt] answers for a
    transaction hash. *)
Definition Ledger := string -> RpcResult.

(** ** The world: the replay store, the clock and the observable effects *)

(** A record of the [BASIS_KV] namespace: the stored string and the time
    (in seconds) at which the store evicts it. *)
Record KvEntry := { value : string; expiration : Z }.

(** The effects of a request on its collaborators, in program order. *)
Inductive Event :=
| EvKvGet (key : string)
| EvKvPut (key val : string) (expirationTtl : Z)
| EvKvDelete (key : string)
| EvVerify (txHash recipient : string)
| EvRpc (txHash : string).

(** [faults] says which of the coming store operations throw ([true]),
    one entry per operation; past its end they all succeed. *)
Record World := {
  kv : gmap string KvEntry;
  now : Z;
  faults : list bool;
  trace : list Event }.

Definition set_kv (m : gmap string KvEntry) (w : World) : World :=
  {| kv := m; now := now w; faults := faults w; trace := trace w |}.
Definition set_faults (fs : list bool) (w : World) : World :=
  {| kv := kv w; now := now w; faults := fs; trace := trace w |}.
Definition emit (e : Event) (w : World) : World :=
  {| kv := kv w; now := now w; faults := faults w; trace := trace w ++ [e] |}.

(** Asynchronous code over the world; a rejected promise is [Throw]. *)
Definition M (A : Type) : Type := World -> Outcome A * World.

Definition ret {A} (a : A) : M A := fun w => (Ret a, w).
Definition throw {A} (e : JsError) : M A := fun w => (Throw e, w).
Definition bind {A B} (m : M A) (k : A -> M B) : M B := fun w =>
  match m w with
  | (Ret a, w') => k a w'
  | (Throw e, w') => (Throw e, w')
  end.
(** [try { body } catch (error) { handler }] *)
Definition try_catch {A} (body : M A) (handler : JsError -> M A) : M A := fun w =>
  match body w with
  | (Ret a, w') => (Ret a, w')
  | (Throw e, w') => handler e w'
  end.

#[global] Instance M_ret : MRet M := @ret.
#[global] Instance M_bind : MBind M := fun A B k m => bind m k.

(** *** The KV namespace *)

Module KV.

Definition unavailable : JsError :=
  {| name := "Error"; message := "KV operation failed" |}.

(** The world once an operation has been issued: the operation is
    recorded and has taken its entry of [faults]. *)
Definition after (e : Event) (w : World) : World :=
  set_faults (tail (faults w)) (emit e w).

(** One store operation: it throws when the next entry of [faults] is
    [true] and runs otherwise. *)
Definition op {A} (e : Event) (run : World -> A * World) : M A := fun w =>
  match head (faults w) with
  | Some true => (Throw unavailable, after e w)
  | _ => let '(a, w2) := run (after e w) in (Ret a, w2)
  end.

(** What a reader sees under [key] at time [t]. *)
Definition visible (m : gmap string KvEntry) (t : Z) (key : string) : option string :=
  match m !! key with
  | Some e => if t <? expiration e then Some (value e) else None
  | None => None
  end.

(** [kv.get(key)]: the value, or [null] when there is none or it expired. *)
Definition get (key : string) : M (option string) :=
  op (EvKvGet key) (fun w => (visible (kv w) (now w) key, w)).

(** [kv.put(key, value, { expirationTtl })] *)
Definition put (key val : string) (expirationTtl : Z) : M unit :=
  op (EvKvPut key val expirationTtl)
     (fun w => (tt, set_kv (<[key := {| value := val; expiration := now w + expirationTtl |}]> (kv w)) w)).

(** [kv.delete(key)] *)
Definition delete (key : string) : M unit :=
  op (EvKvDelete key) (fun w => (tt, set_kv (base.delete key (kv w)) w)).

End KV.

(** ** middleware/x402.ts: the chain verifier *)

Definition USDC_BASE_ADDRESS : string := "0x833589fCD6eDb6E08f4c7C32D4f71b54bdA02913".
Definition MIN_PAYMENT_AMOUNT : Z := 1000.
Definition REPLAY_TTL : Z := 86400.
Definition PENDING_TTL : Z := 300.

Record Transfer := { from : string; to : string; transfer_value : Z }.

Record Verification := {
  valid : bool;
  walletAddress : option string;
  error : option string }.

Definition invalid (msg : string) : Verification :=
  {| valid := false; walletAddress := None; error := Some msg |}.

Definition TEST_HASH : string :=
  "0x1234567890abcdef1234567890abcdef1234567890abcdef1234567890abcdef".

(** [/^0x(1234567890abcdef|0000000000000000|ffffffffffffffff)/i.test(txHash)
     || txHash === "0x1234...cdef"] *)
Definition isTestHash (txHash : string) : bool :=
  (Js.startsWith_ci "0x1234567890abcdef" txHash
   || Js.startsWith_ci "0x0000000000000000" txHash
   || Js.startsWith_ci "0xffffffffffffffff" txHash)
  || bool_decide (txHash = TEST_HASH).

Section ChainVerifier.
Context `{viem : Viem}.
Variable ledger : Ledger.

Definition decodeUSDCLog (log : Log) : option Transfer :=
  if negb (bool_decide (Js.toLowerCase (address log) = Js.toLowerCase USDC_BASE_ADDRESS))
  then None
  else
    match decodeEventLog (data log) (topics log) with
    | Some decoded =>
        if negb (bool_decide (eventName decoded = "Transfer")) then None
        else Some {| from := args_from decoded;
                     to := args_to decoded;
                     transfer_value := args_value decoded |}
    | None => None
    end.

(** The [for (const log of receipt.logs)] loop: [validTransfer] after it. *)
Fixpoint find_valid_transfer (expectedRecipient : string) (ls : list Log)
  : option Transfer :=
  match ls with
  | [] => None
  | log :: rest =>
      match decodeUSDCLog log with
      | Some decoded =>
          if bool_decide (Js.toLowerCase (to decoded) = Js.toLowerCase expectedRecipient)
          then
            if MIN_PAYMENT_AMOUNT <=? transfer_value decoded
            then Some decoded
            else find_valid_transfer expectedRecipient rest
          else find_valid_transfer expectedRecipient rest
      | None => find_valid_transfer expectedRecipient rest
      end
  end.

Definition check_receipt (receipt : Receipt) (expectedRecipient : string)
  : Verification :=
  if negb (bool_decide (status receipt = "success"))
  then invalid "Transaction failed or is pending"
  else
    match logs receipt with
    | [] => invalid "Transaction contains no logs"
    | _ =>
        match find_valid_transfer expectedRecipient (logs receipt) with
        | None =>
            invalid "No valid USDC transfer found to recipient address with sufficient amount"
        | Some validTransfer =>
            {| valid := true; walletAddress := Some (from validTransfer); error := None |}
        end
    end.

(** The [catch] block of [verifyPayment]. *)
Definition classify_error (txHash : string) (e : JsError) : Verification :=
  let errorMessage := message e in
  if Js.includes "could not be found" errorMessage
     || Js.includes "Transaction receipt" errorMessage
     || Js.includes "not found" errorMessage
     || bool_decide (name e = "TransactionReceiptNotFoundError")
  then invalid ("Transaction receipt with hash " +:+ Js.dquote +:+ txHash +:+ Js.dquote
                +:+ " could not be found. The transaction may not be processed on a block yet, or the hash may be invalid. Please ensure the transaction has been confirmed on Base Mainnet.")
  else if Js.includes "fetch" errorMessage
          || Js.includes "network" errorMessage
          || Js.includes "timeout" errorMessage
          || Js.includes "ECONNREFUSED" errorMessage
  then invalid "Failed to connect to Base Mainnet RPC. Please try again later."
  else invalid (Js.or_default (Some errorMessage) "Failed to verify transaction on blockchain").

(** [await client.getTransactionReceipt({ hash })] *)
Definition getTransactionReceipt (txHash : string) : M RpcResult :=
  fun w => (Ret (ledger txHash), emit (EvRpc txHash) w).

Definition verifyPayment (txHash expectedRecipient : string) : M Verification :=
  if isTestHash txHash
  then ret (invalid "Invalid transaction hash: This appears to be a test/placeholder hash. Please use a real transaction hash from Base Mainnet.")
  else
    r ← getTransactionReceipt txHash;
    match r with
    | RpcReceipt receipt => ret (check_receipt receipt expectedRecipient)
    | RpcThrows e => ret (classify_error txHash e)
    end.

(** What [verifyPayment] resolves to, as a value. *)
Definition verdict (txHash expectedRecipient : string) : Verification :=
  if isTestHash txHash
  then invalid "Invalid transaction hash: This appears to be a test/placeholder hash. Please use a real transaction hash from Base Mainnet."
  else
    match ledger txHash with
    | RpcReceipt receipt => check_receipt receipt expectedRecipient
    | RpcThrows e => classify_error txHash e
    end.

(** The decodable USDC transfers of a receipt that go to [rcpt],
    compared as the code compares addresses, in log order. *)
Definition transfers_to (rcpt : string) (ls : list Log) : list Transfer :=
  filter (fun t => Js.toLowerCase (to t) = Js.toLowerCase rcpt)
         (omap decodeUSDCLog ls).

End ChainVerifier.

(** ** Requests, responses and the worker environment *)

(** The secrets and bindings of a worker ([c.env]).  [BASIS_KV] says
    whether the namespace is bound; its content is the world's [kv]. *)
Record Env := {
  BASIS_WALLET_ADDRESS : option string;
  BASIS_KV : bool;
  BASIS_PRIVATE_KEY : option string }.

(** The context variables of a request ([BasisContext] of types.ts). *)
Record BasisContext := {
  wallet_address : option string;
  tx_hash : option string }.

(** Hono's context variables.  [c.set] stores a variable in the request
    context, and [c.var] is a getter that builds a new object from the
    stored variables at each read: an assignment to a property of
    [c.var] changes the object of that read and nothing that is
    stored. *)
Module Hono.

(** What is stored for a request on which [c.set] was never called. *)
Definition unset : BasisContext := {| wallet_address := None; tx_hash := None |}.

(** [c.var], for the stored variables [stored]. *)
Definition var (stored : BasisContext) : BasisContext := stored.

(** [o.wallet_address = v] on an object [o]. *)
Definition assign_wallet_address (v : option string) (o : BasisContext) : BasisContext :=
  {| wallet_address := v; tx_hash := tx_hash o |}.

(** [o.tx_hash = v] on an object [o]. *)
Definition assign_tx_hash (v : option string) (o : BasisContext) : BasisContext :=
  {| wallet_address := wallet_address o; tx_hash := v |}.

End Hono.

Record PaymentContext := {
  chain : string;
  network : string;
  currency : string;
  amount : string;
  recipient : string }.

(** tools/witness.ts: [WitnessProof]. *)
Record WitnessProof := {
  witness_id : string;
  timestamp : string;
  method : string;
  signer : string;
  hash : string;
  signature : string }.

(** The JSON bodies the modelled routes send.  Of the Basis packet, the
    [meta] block (a random id and latencies) is left out, and so is the
    content of the validator's error report. *)
Inductive Body :=
| ErrorBody (err msg : string) (payment_context : option PaymentContext)
| FetchErrorBody (err : option string)
| ValidationErrorBody
| BasisPacket (url content_preview : string) (full_content_length : Z)
              (proof : WitnessProof).

(** [c.json(body, status)] *)
Record Response := { http_status : Z; body : Body }.

Definition json (b : Body) (st : Z) : Response := {| http_status := st; body := b |}.

(** How a middleware ends: it returns a response itself, or it reaches
    [await next()]; [ctx] is what the request context stores then, which
    is what the handlers downstream read through [c.var]. *)
Inductive GateResult :=
| Respond (r : Response)
| Next (ctx : BasisContext).

Definition payment_context_for (rcpt : string) : PaymentContext :=
  {| chain := "base"; network := "mainnet"; currency := "USDC";
     amount := "0.001"; recipient := rcpt |}.

Definition payment_required (env : Env) : Response :=
  json (ErrorBody "Payment Required"
          "You must attach a valid x402 transaction hash to the Authorization header."
          (Some (payment_context_for
                   (Js.or_default (BASIS_WALLET_ADDRESS env) "0x_SETUP_YOUR_WALLET_SECRET"))))
       402.

(** [authHeader && authHeader.startsWith("0x") && authHeader.length === 66] *)
Definition header_accepted (authHeader : option string) : bool :=
  let h := default "" authHeader in
  negb (Js.falsy authHeader) && Js.startsWith "0x" h && (Js.length h =? 66).

(** The worker is configured: the recipient is set and the namespace is
    bound. *)
Definition configured (env : Env) (wallet : string) : Prop :=
  BASIS_WALLET_ADDRESS env = Some wallet /\ wallet <> "" /\ BASIS_KV env = true.

(** The [n]-th store operation to come does not throw. *)
Definition succeeds (n : nat) (w : World) : Prop := faults w !! n <> Some true.

(** The [n]-th store operation to come throws. *)
Definition fails (n : nat) (w : World) : Prop := faults w !! n = Some true.

(** ** middleware/x402-mock.ts *)

Module Mock.

Definition x402 (env : Env) (authHeader : option string) : M GateResult :=
  let isValidPayment := header_accepted authHeader in
  if negb isValidPayment
  then mret (Respond (payment_required env))
  else mret (Next {| wallet_address := None; tx_hash := None |}).

End Mock.

(** ** middleware/x402.ts: the production gate *)

Definition payment_reuse_detected : Response :=
  json (ErrorBody "Payment Reuse Detected"
          "This transaction hash has already been used. Each payment can only be used once."
          None)
       402.

Definition lock_acquisition_failed : Response :=
  json (ErrorBody "Internal Server Error" "Failed to process payment verification" None) 500.

Definition usage_not_recorded : Response :=
  json (ErrorBody "Internal Server Error"
          "Payment verified but failed to record usage. Please contact support." None)
       500.

Definition verification_failed (verification : Verification) (basisWalletAddress : string)
  : Response :=
  json (ErrorBody "Payment Verification Failed"
          (Js.or_default (error verification) "Transaction does not meet payment requirements")
          (Some (payment_context_for basisWalletAddress)))
       402.

Definition configuration_error (msg : string) : Response :=
  json (ErrorBody "Configuration Error" msg None) 500.

Section Gate.
Context `{viem : Viem}.
Variable ledger : Ledger.

(** Step 1 of the gate, the first [try] block: [Some r] when the block
    returns the response [r], [None] when control falls out of it. *)
Definition acquire_lock (txHash : string) : M (option Response) :=
  try_catch
    (existingHash ← KV.get txHash;
     match existingHash with
     | Some _ => mret (Some payment_reuse_detected)
     | None =>
         KV.put txHash "pending" PENDING_TTL;;
         mret None
     end)
    (fun _ => mret (Some lock_acquisition_failed)).

(** Step 3 of the gate, the last [try] block. *)
Definition mark_used (txHash : string) : M (option Response) :=
  try_catch
    (KV.put txHash "used" REPLAY_TTL;; mret None)
    (fun _ => mret (Some usage_not_recorded)).

Definition call_verifyPayment (txHash basisWalletAddress : string) : M Verification :=
  fun w => verifyPayment ledger txHash basisWalletAddress
             (emit (EvVerify txHash basisWalletAddress) w).

Definition x402 (env : Env) (authHeader : option string) : M GateResult :=
  let h := default "" authHeader in
  if Js.falsy authHeader || negb (Js.startsWith "0x" h) || negb (Js.length h =? 66)
  then mret (Respond (payment_required env))
  else
    let txHash := h in
    let basisWalletAddress := default "" (BASIS_WALLET_ADDRESS env) in
    if Js.falsy (BASIS_WALLET_ADDRESS env)
    then mret (Respond (configuration_error "BASIS_WALLET_ADDRESS not configured"))
    else if negb (BASIS_KV env)
    then mret (Respond (configuration_error "BASIS_KV not configured"))
    else
      locked ← acquire_lock txHash;
      match locked with
      | Some r => mret (Respond r)
      | None =>
          verification ← call_verifyPayment txHash basisWalletAddress;
          if negb (valid verification)
          then
            try_catch (KV.delete txHash) (fun _ => mret tt);;
            mret (Respond (verification_failed verification basisWalletAddress))
          else
            recorded ← mark_used txHash;
            match recorded with
            | Some r => mret (Respond r)
            | None =>
                (* [(c.var as BasisContext).wallet_address = ...] and
                   [(c.var as BasisContext).tx_hash = ...]: each is an
                   assignment to the object that read of [c.var] built;
                   no [c.set] is called *)
                let stored := Hono.unset in
                let first_read :=
                  Hono.assign_wallet_address (walletAddress verification) (Hono.var stored) in
                let second_read := Hono.assign_tx_hash (Some txHash) (Hono.var stored) in
                mret (Next stored)
            end
      end.

(** The gate past its header and configuration checks. *)
Definition gate_core (basisWalletAddress txHash : string) : M GateResult :=
  locked ← acquire_lock txHash;
  match locked with
  | Some r => mret (Respond r)
  | None =>
      verification ← call_verifyPayment txHash basisWalletAddress;
      if negb (valid verification)
      then
        try_catch (KV.delete txHash) (fun _ => mret tt);;
        mret (Respond (verification_failed verification basisWalletAddress))
      else
        recorded ← mark_used txHash;
        match recorded with
        | Some r => mret (Respond r)
        | None =>
            let stored := Hono.unset in
            let first_read :=
              Hono.assign_wallet_address (walletAddress verification) (Hono.var stored) in
            let second_read := Hono.assign_tx_hash (Some txHash) (Hono.var stored) in
            mret (Next stored)
        end
  end.

(** The store and ledger effects one execution of the gate core can
    have, in order. *)
Definition gate_effects (wallet h : string) : list (list Event) :=
  let locking := [EvKvGet h; EvKvPut h "pending" PENDING_TTL] in
  let verifying := locking ++ [EvVerify h wallet] in
  [EvKvGet h] :: locking ::
  if isTestHash h
  then [ verifying ++ [EvKvDelete h] ]
  else [ verifying ++ [EvRpc h; EvKvDelete h];
         verifying ++ [EvRpc h; EvKvPut h "used" REPLAY_TTL] ].

End Gate.

(** ** tools/witness*.ts: the witness signers

    [timestamp] (or [proofTimestamp]) is what [new Date().toISOString()]
    returns at the call; numbers that a template literal renders
    ([score], [result], the JSON of [inputs]) arrive rendered. *)

#[global] Instance Outcome_ret : MRet Outcome := @Ret.
#[global] Instance Outcome_bind : MBind Outcome := fun A B k m =>
  match m with
  | Ret a => k a
  | Throw e => Throw e
  end.

Definition KEY_MISSING : JsError :=
  Error "CRITICAL: BASIS_PRIVATE_KEY is missing. Cannot notarize.".

Definition KEY_BAD_LENGTH (len : Z) : JsError :=
  Error ("CRITICAL: BASIS_PRIVATE_KEY has invalid format. Expected 66 characters (0x + 64 hex), got "
         +:+ pretty len +:+ ". "
         +:+ "Please ensure your private key is a valid hex string starting with 0x.").

Definition KEY_BAD_CHARACTERS : JsError :=
  Error "CRITICAL: BASIS_PRIVATE_KEY contains invalid characters. Must be a valid hex string (0-9, a-f, A-F).".

(** The key [signContent] and [signRiskAssessment] check and use. *)
Definition normalizedKey (privateKey : string) : string :=
  if Js.startsWith "0x" privateKey then privateKey else "0x" +:+ privateKey.

Section Witness.
Context `{viem : Viem}.

(** The tail every signer shares: hash the payload, sign the raw hash. *)
Definition certify (node timestamp payload : string) (account : Account)
  : WitnessProof :=
  let contentHash := keccak256_of payload in
  let signature := account_sign account contentHash in
  {| witness_id := node;
     timestamp := timestamp;
     method := "ecdsa-secp256k1";
     signer := account_address account;
     hash := contentHash;
     signature := signature |}.

(** tools/witness.ts *)
Definition signContent (content url : string) (privateKey : option string)
    (timestamp : string) : Outcome WitnessProof :=
  if Js.falsy privateKey then Throw KEY_MISSING
  else
    let privateKey := default "" privateKey in
    let normalizedKey :=
      if Js.startsWith "0x" privateKey then privateKey else "0x" +:+ privateKey in
    if negb (Js.length normalizedKey =? 66)
    then Throw (KEY_BAD_LENGTH (Js.length normalizedKey))
    else if negb (Js.hexPattern_test normalizedKey)
    then Throw KEY_BAD_CHARACTERS
    else
      account ← privateKeyToAccount normalizedKey;
      let payload := url +:+ ":" +:+ timestamp +:+ ":" +:+ content in
      mret (certify "basis-edge-node-01" timestamp payload account).

(** tools/witness-signal.ts *)
Definition signRiskAssessment (target score timestamp : string)
    (privateKey : option string) : Outcome WitnessProof :=
  if Js.falsy privateKey then Throw KEY_MISSING
  else
    let privateKey := default "" privateKey in
    let normalizedKey :=
      if Js.startsWith "0x" privateKey then privateKey else "0x" +:+ privateKey in
    if negb (Js.length normalizedKey =? 66)
    then Throw (KEY_BAD_LENGTH (Js.length normalizedKey))
    else if negb (Js.hexPattern_test normalizedKey)
    then Throw KEY_BAD_CHARACTERS
    else
      account ← privateKeyToAccount normalizedKey;
      let payload := "TARGET:" +:+ target +:+ ":SCORE:" +:+ score +:+ ":TIME:" +:+ timestamp in
      mret (certify "basis-signal-node-01" timestamp payload account).

(** The other copy of [signContent], bundled with witness-cache.ts:
    it hands the key to [privateKeyToAccount] as it is. *)
Definition signContent_unchecked (content url : string) (privateKey : option string)
    (timestamp : string) : Outcome WitnessProof :=
  if Js.falsy privateKey then Throw KEY_MISSING
  else
    account ← privateKeyToAccount (default "" privateKey);
    let payload := url +:+ ":" +:+ timestamp +:+ ":" +:+ content in
    mret (certify "basis-edge-node-01" timestamp payload account).

(** tools/witness-cache.ts *)
Definition signProofOfCustody (key val : string) (privateKey : option string)
    (timestamp : string) : Outcome WitnessProof :=
  if Js.falsy privateKey then Throw KEY_MISSING
  else
    account ← privateKeyToAccount (default "" privateKey);
    let custodyStatement :=
      "I hold this data as of " +:+ timestamp +:+ ". Key: " +:+ key +:+ ", Value: " +:+ val in
    mret (certify "basis-cache-node-01" timestamp custodyStatement account).

Definition signDataIntegrity (key val : string) (privateKey : option string)
    (timestamp : string) : Outcome WitnessProof :=
  if Js.falsy privateKey then Throw KEY_MISSING
  else
    account ← privateKeyToAccount (default "" privateKey);
    let payload := key +:+ ":" +:+ val +:+ ":" +:+ timestamp in
    mret (certify "basis-cache-node-01" timestamp payload account).

(** tools/witness-calc.ts *)
Definition signAuditTrail (formulaName jsonInputs result : string)
    (privateKey : option string) (timestamp : string) : Outcome WitnessProof :=
  if Js.falsy privateKey then Throw KEY_MISSING
  else
    account ← privateKeyToAccount (default "" privateKey);
    let payload :=
      "FORMULA:" +:+ formulaName +:+ ":INPUTS:" +:+ jsonInputs +:+ ":RESULT:" +:+ result in
    mret (certify "basis-calc-node-01" timestamp payload account).

(** tools/witness-badge.ts *)
Definition signBadge (wallet status sessionId : string)
    (privateKey : option string) (timestamp : string) : Outcome WitnessProof :=
  if Js.falsy privateKey then Throw KEY_MISSING
  else
    account ← privateKeyToAccount (default "" privateKey);
    let payload :=
      "WALLET:" +:+ wallet +:+ ":STATUS:" +:+ status +:+ ":SESSION:" +:+ sessionId in
    mret (certify "basis-badge-node-01" timestamp payload account).

(** tools/witness-hash.ts *)
Definition signTimeline (eventHash timestamp nonce : string)
    (privateKey : option string) (proofTimestamp : string) : Outcome WitnessProof :=
  if Js.falsy privateKey then Throw KEY_MISSING
  else
    account ← privateKeyToAccount (default "" privateKey);
    let payload :=
      "EVENT:" +:+ eventHash +:+ ":TIME:" +:+ timestamp +:+ ":NONCE:" +:+ nonce in
    mret (certify "basis-hash-node-01" proofTimestamp payload account).

(** tools/witness-scan.ts *)
Definition signClassification (imageHash label score : string)
    (privateKey : option string) (timestamp : string) : Outcome WitnessProof :=
  if Js.falsy privateKey then Throw KEY_MISSING
  else
    account ← privateKeyToAccount (default "" privateKey);
    let payload :=
      "IMAGE_HASH:" +:+ imageHash +:+ ":TOP_RESULT:" +:+ label +:+ ":CONFIDENCE:" +:+ score in
    mret (certify "basis-scan-node-01" timestamp payload account).

End Witness.

(** ** index.ts: the [/verify_url] route

    [app.post("/verify_url", x402, zValidator("json", executeSchema), handler)].
    The request log sent to Supabase is not the replay store and is left
    out. *)

(** tools/fetch.ts: what [performFetch] resolves to (it catches its own
    errors). *)
Record FetchResult := {
  fetch_status : Z;
  content : option string;
  fetch_error : option string }.

(** A request: its Authorization header, and the URL of its body when
    the body passes [executeSchema]. *)
Record Request := { authorization : option string; args_url : option string }.

Definition internal_server_error : Response :=
  json (ErrorBody "Internal Server Error"
          "An unexpected error occurred while processing your request" None)
       500.

(** What [zValidator] answers to a body that fails the schema. *)
Definition invalid_body : Response := json ValidationErrorBody 400.

Section VerifyUrl.
Context `{viem : Viem}.
Variable ledger : Ledger.
Variable performFetch : string -> FetchResult.

(** The route handler; [timestamp] is the clock reading at signing. *)
Definition handler (env : Env) (url timestamp : string) : Response :=
  let fetchResult := performFetch url in
  if negb (fetch_status fetchResult =? 200) || Js.falsy (content fetchResult)
  then json (FetchErrorBody (fetch_error fetchResult)) (fetch_status fetchResult)
  else
    let text := default "" (content fetchResult) in
    let privateKey := BASIS_PRIVATE_KEY env in
    if Js.falsy privateKey
    then configuration_error "BASIS_PRIVATE_KEY not configured. Cannot create witness proof."
    else
      match signContent text url privateKey timestamp with
      | Ret proof =>
          json (BasisPacket url (String.substring 0 100 text +:+ "...") (Js.length text) proof)
               200
      | Throw _ => internal_server_error
      end.

Definition verify_url (env : Env) (req : Request) (timestamp : string) : M Response :=
  gate ← x402 ledger env (authorization req);
  match gate with
  | Respond r => mret r
  | Next _ =>
      match args_url req with
      | None => mret invalid_body
      | Some url => mret (handler env url timestamp)
      end
  end.

End VerifyUrl.

(** ** The workers and the gate each one installs *)

Inductive Service := Fetch | Scan | Cache | Calc | Hash | Badge | Signal.

Inductive GateModule := X402 | X402Mock | X402Signal.

(** The [import { x402 } from "./middleware/..."] line of each entry
    point (index.ts, index-scan.ts, index-cache.ts, index-calc.ts,
    index-hash.ts, index-badge.ts, index-signal.ts). *)
Definition imported_gate (s : Service) : GateModule :=
  match s with
  | Fetch => X402
  | Scan | Cache | Calc | Hash | Badge => X402Mock
  | Signal => X402Signal
  end.

Section Installed.
Context `{viem : Viem}.
Variable ledger : Ledger.

(** The middleware a module exports; x402-signal.ts is not among the
    sources. *)
Definition middleware (g : GateModule)
  : option (Env -> option string -> M GateResult) :=
  match g with
  | X402 => Some (x402 ledger)
  | X402Mock => Some Mock.x402
  | X402Signal => None
  end.

(** A client presenting the headers [hs] to a gate, one request after
    the other. *)
Fixpoint present (gate : Env -> option string -> M GateResult) (env : Env)
    (hs : list (option string)) : World -> list (Outcome GateResult) * World :=
  fun w =>
    match hs with
    | [] => ([], w)
    | h :: rest =>
        let '(r, w1) := gate env h w in
        let '(rs, w2) := present gate env rest w1 in
        (r :: rs, w2)
    end.

End Installed.

(** ** The sequential runs of the production gate

    A step is one whole execution of the gate (for any request, ledger
    answer, configuration and store faults) or the passing of time. *)

Definition advance (d : Z) (w : World) : World :=
  {| kv := kv w; now := now w + d; faults := faults w; trace := trace w |}.

Inductive step `{viem : Viem} : World -> World -> Prop :=
| step_request ledger env authHeader fs w r w' :
    x402 ledger env authHeader (set_faults fs w) = (r, w') ->
    step w w'
| step_tick d w :
    0 <= d ->
    step w (advance d w).

(** ** A symbolic stand-in for [viem], for running the code on examples

    Hashes, addresses and signatures are formal terms.  [decodeEventLog]
    reads a Transfer log laid out as the ABI lays it out: the event
    signature, then the two indexed addresses left-padded to 32 bytes,
    and the amount as one 32-byte word of data. *)

Module Sample.

Definition TRANSFER_TOPIC : string :=
  "0xddf252ad1be2c89b69c2b068fc378daa952ba7f163c4a11628f55a4df523b3ef".

Definition hex_digit (c : ascii) : Z :=
  let n := Z.of_N (Js.code c) in
  if Js.in_range 48 57 c then n - 48
  else if Js.in_range 97 102 c then n - 87
  else n - 55.

Fixpoint hex_value (acc : Z) (s : string) : Z :=
  match s with
  | EmptyString => acc
  | String c s' => hex_value (16 * acc + hex_digit c) s'
  end.

(** The address held in a 32-byte topic: its last 20 bytes. *)
Definition topic_address (t : string) : option string :=
  if Js.hexPattern_test t && Js.startsWith "0x000000000000000000000000" t
  then Some ("0x" +:+ String.substring 26 40 t)
  else None.

Definition decode (data : string) (topics : list string) : option DecodedEvent :=
  match topics with
  | [sig; t1; t2] =>
      if bool_decide (sig = TRANSFER_TOPIC) && Js.hexPattern_test data
      then
        match topic_address t1, topic_address t2 with
        | Some a, Some b =>
            Some {| eventName := "Transfer"; args_from := a; args_to := b;
                    args_value := hex_value 0 (String.substring 2 64 data) |}
        | _, _ => None
        end
      else None
  | _ => None
  end.

Definition account (key : string) : Outcome Account :=
  if Js.hexPattern_test key
  then Ret {| account_address := "address(" +:+ key +:+ ")";
              account_sign := fun h => "sign(" +:+ key +:+ "," +:+ h +:+ ")" |}
  else Throw (Error "invalid private key").

#[export] Instance viem : Viem := {|
  decodeEventLog := decode;
  privateKeyToAccount := account;
  keccak256_of := fun payload => "keccak256(" +:+ payload +:+ ")" |}.

Definition WALLET : string := "0xC40f06A8b3702D1373E0b6aEF34e48c0e44e77f0".
Definition PAYER : string := "0x1111111111111111111111111111111111111111".

Definition pad_address (a : string) : string :=
  "0x000000000000000000000000" +:+ String.substring 2 40 a.

(** A USDC Transfer log from [src] to [dst] with the amount word [word]. *)
Definition transfer_log (src dst word : string) : Log :=
  {| address := USDC_BASE_ADDRESS;
     topics := [TRANSFER_TOPIC; pad_address src; pad_address dst];
     data := "0x" +:+ word |}.

Definition word_999 : string :=
  "00000000000000000000000000000000000000000000000000000000000003e7".
Definition word_1000 : string :=
  "00000000000000000000000000000000000000000000000000000000000003e8".
Definition word_5000 : string :=
  "0000000000000000000000000000000000000000000000000000000000001388".

Definition TX : string :=
  "0x9b1c7a4e5d2f8036a1b4c7d8e9f00112233445566778899aabbccddeeff00a1b".

Definition env : Env :=
  {| BASIS_WALLET_ADDRESS := Some WALLET;
     BASIS_KV := true;
     BASIS_PRIVATE_KEY :=
       Some "0x796978efb40f74b514c8dca7984eb62381d3f1339f0812d1a503c128e62c127b" |}.

(** A ledger that knows one transaction, [TX], with the given logs. *)
Definition ledger_with (ls : list Log) : Ledger := fun h =>
  if bool_decide (h = TX)
  then RpcReceipt {| status := "success"; logs := ls |}
  else RpcThrows {| name := "TransactionReceiptNotFoundError";
                    message := "Transaction receipt could not be found." |}.

Definition paid : Ledger := ledger_with [transfer_log PAYER WALLET word_1000].

Definition OTHER_PAYER : string := "0x2222222222222222222222222222222222222222".
Definition wallet_lower : string := "0xc40f06a8b3702d1373e0b6aef34e48c0e44e77f0".

(** A transfer of 999 units to the wallet, then one of 5000 units. *)
Definition short_then_full : list Log :=
  [transfer_log PAYER WALLET word_999; transfer_log OTHER_PAYER WALLET word_5000].

Definition world0 : World := {| kv := ∅; now := 0; faults := []; trace := [] |}.

(** One hour after [TX] was spent at time 0. *)
Definition world_used : World :=
  {| kv := {[ TX := {| value := "used"; expiration := 86400 |} ]};
     now := 3600; faults := []; trace := [] |}.

(** [world_used] after a second request with [TX], 82799 seconds
    later: one second before the record expires. *)
Definition world_replayed : World :=
  advance 82799 (snd (x402 (viem := viem) paid env (Some TX) world_used)).

(** The signing key of [env] without its ["0x"]: 64 characters. *)
Definition BARE_KEY : string :=
  "796978efb40f74b514c8dca7984eb62381d3f1339f0812d1a503c128e62c127b".

(** [env] with a signing key that is too short. *)
Definition env_short_key : Env :=
  {| BASIS_WALLET_ADDRESS := Some WALLET;
     BASIS_KV := true;
     BASIS_PRIVATE_KEY := Some "0x1234" |}.

(** A page that is fetched without trouble. *)
Definition fetched (url : string) : FetchResult :=
  {| fetch_status := 200; content := Some "Example Domain"; fetch_error := None |}.

Definition request : Request :=
  {| authorization := Some TX; args_url := Some "https://example.com" |}.

(** 66 characters, ["0x"] first, none of the others hexadecimal. *)
Definition NOT_HEX : string :=
  "0xzzzzzzzzzzzzzzzzzzzzzzzzzzzzzzzzzzzzzzzzzzzzzzzzzzzzzzzzzzzzzzzz".

End Sample.


(** ** Further definitions for stating properties *)

(** The store key or transaction hash an effect is about. *)
Definition event_key (e : Event) : string :=
  match e with
  | EvKvGet k | EvKvPut k _ _ | EvKvDelete k | EvVerify k _ | EvRpc k => k
  end.

(** An HTTP status the gate itself answers with. *)
Definition refusal_status (g : GateResult) : Prop :=
  match g with
  | Respond r => http_status r = 402 \/ http_status r = 500
  | Next _ => True
  end.

(** More values for running the code on examples. *)
Module Sample2.

(** A ledger on which [Sample.TX] has not been mined yet. *)
Definition unmined : Ledger := fun _ =>
  RpcThrows {| name := "TransactionReceiptNotFoundError";
               message := "Transaction receipt could not be found." |}.


End Sample2.

(** ** utils/security.ts: which URLs may be fetched

    [new URL(url)] is the platform's parser: it is a parameter, giving
    the protocol and the host name of a URL it accepts. *)

Record Url := { protocol : string; hostname : string }.

Module Security.

(** [\d] *)
Definition is_digit (c : ascii) : bool := Js.in_range 48 57 c.

(** [/^172\.(1[6-9]|2[0-9]|3[01])\./.test(h)] *)
Definition re_172 (h : string) : bool :=
  Js.startsWith "172." h &&
  match String.get 4 h, String.get 5 h, String.get 6 h with
  | Some d1, Some d2, Some dot =>
      ((Ascii.eqb d1 "1" && Js.in_range 54 57 d2)
       || (Ascii.eqb d1 "2" && Js.in_range 48 57 d2)
       || (Ascii.eqb d1 "3" && Js.in_range 48 49 d2))
      && Ascii.eqb dot "."
  | _, _, _ => false
  end.

(** [/^22[4-9]\./.test(h)] *)
Definition re_224 (h : string) : bool :=
  Js.startsWith "22" h &&
  match String.get 2 h, String.get 3 h with
  | Some d, Some dot => Js.in_range 52 57 d && Ascii.eqb dot "."
  | _, _ => false
  end.

(** [/^23[0-9]\./.test(h)] *)
Definition re_23x (h : string) : bool :=
  Js.startsWith "23" h &&
  match String.get 2 h, String.get 3 h with
  | Some d, Some dot => Js.in_range 48 57 d && Ascii.eqb dot "."
  | _, _ => false
  end.

(** The longest run of digits at the head of a string, and what follows. *)
Fixpoint span_digits (s : string) : string * string :=
  match s with
  | String c s' =>
      if is_digit c
      then let '(ds, rest) := span_digits s' in (String c ds, rest)
      else (EmptyString, s)
  | EmptyString => (EmptyString, EmptyString)
  end.

(** [Number(ds)] for a string of digits. *)
Fixpoint decimal (acc : N) (ds : string) : N :=
  match ds with
  | String c ds' => decimal (10 * acc + (Js.code c - 48))%N ds'
  | EmptyString => acc
  end.

(** One group [(\d{1,3})] of the address pattern, at the head of [s]:
    the number it captures and what follows.  What follows a group is
    never a digit in the pattern, so the group is the whole run. *)
Definition octet (s : string) : option (N * string) :=
  let '(ds, rest) := span_digits s in
  if ((1 <=? String.length ds) && (String.length ds <=? 3))%nat
  then Some (decimal 0 ds, rest)
  else None.

Definition after_dot (s : string) : option string :=
  match s with
  | String c rest => if Ascii.eqb c "." then Some rest else None
  | EmptyString => None
  end.

(** [hostname.match(/^(\d{1,3})\.(\d{1,3})\.(\d{1,3})\.(\d{1,3})$/)],
    with the four groups as numbers. *)
Definition ipMatch (h : string) : option (N * N * N * N) :=
  '(a, r) ← octet h; r ← after_dot r;
  '(b, r) ← octet r; r ← after_dot r;
  '(c, r) ← octet r; r ← after_dot r;
  '(d, r) ← octet r;
  if String.eqb r "" then Some (a, b, c, d) else None.

(** Heads of host names in the loopback, "this network", private,
    link-local and multicast ranges of IPv4. *)
Definition reserved_prefixes : list string :=
  ["127."; "0."; "10."; "192.168."; "169.254.";
   "172.16."; "172.17."; "172.18."; "172.19."; "172.20."; "172.21."; "172.22."; "172.23.";
   "172.24."; "172.25."; "172.26."; "172.27."; "172.28."; "172.29."; "172.30."; "172.31.";
   "224."; "225."; "226."; "227."; "228."; "229."; "230."; "231.";
   "232."; "233."; "234."; "235."; "236."; "237."; "238."; "239."].

Section Parser.
Variable parseURL : string -> option Url.

Definition isSafeUrl (url : string) : bool :=
  match parseURL url with
  | None => false
  | Some urlObj =>
      if negb (existsb (String.eqb (protocol urlObj)) ["http:"; "https:"]) then false
      else
        let hostname := Js.toLowerCase (hostname urlObj) in
        if String.eqb hostname "localhost"
           || String.eqb hostname "127.0.0.1"
           || String.eqb hostname "::1"
           || String.eqb hostname "0.0.0.0"
           || Js.startsWith "127." hostname
           || Js.startsWith "0." hostname
        then false
        else if String.eqb hostname "169.254.169.254"
                || String.eqb hostname "metadata.google.internal"
        then false
        else if Js.startsWith "10." hostname then false
        else if re_172 hostname then false
        else if Js.startsWith "192.168." hostname then false
        else if Js.startsWith "169.254." hostname then false
        else if re_224 hostname || re_23x hostname then false
        else if
          match ipMatch hostname with
          | Some (a, b, c, d) =>
              ((a <=? 255) && (b <=? 255) && (c <=? 255) && (d <=? 255))%N
              && ((a =? 10)%N
                  || ((a =? 172)%N && (16 <=? b)%N && (b <=? 31)%N)
                  || ((a =? 192)%N && (b =? 168)%N)
                  || ((a =? 169)%N && (b =? 254)%N)
                  || (a =? 127)%N
                  || (a =? 0)%N)
          | None => false
          end
        then false
        else if existsb (String.eqb hostname)
                  ["localhost"; "local"; "internal"; "intranet"; "private"]
        then false
        else true
  end.

Definition validateUrl (url : string) : Outcome unit :=
  if bool_decide (url = "")
  then Throw (Error "Invalid URL: URL must be a non-empty string")
  else
    match parseURL url with
    | None => Throw (Error "Invalid URL: Malformed URL format")
    | Some _ =>
        if negb (isSafeUrl url)
        then Throw (Error "Invalid URL: URL is not allowed for security reasons")
        else Ret tt
    end.

End Parser.

End Security.

(** ** tools/fetch.ts

    [fetch] is the platform's; so are the regular-expression engine
    behind [String.prototype.replace] and the clock, which only feeds
    the timing fields left out here. *)

(** What [fetch] resolves to: [response.ok], [response.status],
    [response.statusText], and what [response.text()] resolves to. *)
Record HttpResponse := {
  ok : bool;
  response_status : Z;
  statusText : string;
  response_text : Outcome string }.

Module Fetcher.

(** White space and line terminators below 256, as [trim()] sees them. *)
Definition is_space (c : ascii) : bool :=
  Js.in_range 9 13 c || (Js.code c =? 32)%N || (Js.code c =? 160)%N.

Fixpoint trimStart (s : string) : string :=
  match s with
  | String c s' => if is_space c then trimStart s' else s
  | EmptyString => EmptyString
  end.

(** [s.trimEnd()]: a string all of white space becomes empty. *)
Fixpoint trimEnd (s : string) : string :=
  match s with
  | String c s' =>
      match trimEnd s' with
      | EmptyString => if is_space c then EmptyString else String c EmptyString
      | t => String c t
      end
  | EmptyString => EmptyString
  end.

(** [s.trim()] *)
Definition trim (s : string) : string := trimEnd (trimStart s).

(** The [catch] block of [performFetch]. *)
Definition fetch_failure (e : JsError) : FetchResult :=
  let errorMessage :=
    if String.eqb (name e) "AbortError"
    then "Timeout: Target took too long to respond"
    else if negb (String.eqb (message e) "")
    then
      let lowerMessage := Js.toLowerCase (message e) in
      if existsb (fun safe => Js.includes safe lowerMessage)
           ["fetch failed"; "network"; "timeout"; "aborted"]
      then "Network error: Failed to fetch the requested URL"
      else "Failed to fetch the requested URL"
    else "Failed to fetch the requested URL" in
  {| fetch_status := 504; content := None; fetch_error := Some errorMessage |}.

(** The network as [performFetch] acts on it: the URLs requested so
    far, oldest first. *)
Definition Network := list string.

Section Platform.
Variable parseURL : string -> option Url.
(** What the network answers to a request for a URL. *)
Variable fetch : string -> Outcome HttpResponse.
(** [replace pattern replacement s] is [s.replace(/pattern/flags, replacement)]. *)
Variable replace : string -> string -> string -> string.

(** [await fetch(url, { signal, headers })]: the request goes out, and
    the network answers or the call throws. *)
Definition send (url : string) (sent : Network) : Outcome HttpResponse * Network :=
  (fetch url, sent ++ [url]).

(** The cleaning chain applied to the page text. *)
Definition cleanText (rawText : string) : string :=
  String.substring 0 (Z.to_nat 50000)
    (trim
       (replace "/\s+/g" " "
          (replace "/<[^>]+>/g" ""
             (replace "/<style\b[^>]*>([\s\S]*?)<\/style>/gim" ""
                (replace "/<script\b[^>]*>([\s\S]*?)<\/script>/gim" "" rawText))))).

(** [performFetch(url)] on a network on which [sent] has been
    requested: the result, and the network after the call. *)
Definition performFetch (url : string) (sent : Network) : FetchResult * Network :=
  match Security.validateUrl parseURL url with
  | Throw error =>
      ({| fetch_status := 400;
          content := None;
          fetch_error := Some (Js.or_default (Some (message error)) "Invalid URL") |},
       sent)
  | Ret _ =>
      let '(answer, sent) := send url sent in
      match answer with
      | Throw error => (fetch_failure error, sent)
      | Ret response =>
          if negb (ok response)
          then ({| fetch_status := response_status response;
                   content := None;
                   fetch_error :=
                     Some ("Target refused connection: " +:+ statusText response) |},
                sent)
          else
            match response_text response with
            | Throw error => (fetch_failure error, sent)
            | Ret rawText =>
                ({| fetch_status := 200;
                    content := Some (cleanText rawText);
                    fetch_error := None |},
                 sent)
            end
      end
  end.

End Platform.

End Fetcher.

(** A platform for running the fetching code on examples. *)
Module Sample3.

(** A parser that knows a few URLs. *)
Definition parse (url : string) : option Url :=
  if String.eqb url "https://example.com"
  then Some {| protocol := "https:"; hostname := "example.com" |}
  else if String.eqb url "http://10.0.0.5/admin"
  then Some {| protocol := "http:"; hostname := "10.0.0.5" |}
  else if String.eqb url "http://[::1]:8080/"
  then Some {| protocol := "http:"; hostname := "[::1]" |}
  else None.

(** A web on which every page is the same. *)
Definition web (page : string) : string -> Outcome HttpResponse := fun _ =>
  Ret {| ok := true; response_status := 200; statusText := "OK"; response_text := Ret page |}.

(** A regular-expression engine that never finds a match. *)
Definition no_match (pattern replacement s : string) : string := s.

Definition internal_request : Request :=
  {| authorization := Some Sample.TX; args_url := Some "http://10.0.0.5/admin" |}.

End Sample3.

(** ** tools/cache.ts and index-cache.ts: the cache worker

    The world's store stands for the [MEMORY_KV] namespace here.  The
    request body arrives parsed; what [JSON.stringify] makes of an
    object value arrives with it. *)

Record CacheSetResult := { stored_status : string; stored_key : string; stored_ttl : Z }.

Record CacheGetResult := { got_value : option string; found : bool; got_key : string }.

(** The [value] of a [/set] body: a string, or an object with its JSON
    text. *)
Inductive JsonValue :=
| JString (s : string)
| JObject (stringified : string).

Record SetBody := { body_key : string; body_value : JsonValue; body_ttl : option Z }.

(** A [/set] request: its Authorization header and its body, when the
    body has the types of [setSchema]. *)
Record SetRequest := { set_authorization : option string; set_body : option SetBody }.

(** A [/get] request: its Authorization header and its [key] query
    parameter. *)
Record GetRequest := { get_authorization : option string; query_key : option string }.

(** The bindings of the cache worker; [BASIS_KV] of [bindings] is not
    one of them and is not read. *)
Record CacheEnv := { bindings : Env; MEMORY_KV : bool }.

Inductive CacheBody :=
| CacheError (err msg : string)
| CacheInvalidBody
| CacheSetPacket (key status : string) (ttl : Z) (proof : WitnessProof)
| CacheGetPacket (key : string) (val : option string) (was_found : bool) (proof : WitnessProof).

(** What a route of the cache worker answers: the gate's response, or
    the handler's with its status. *)
Inductive CacheReply :=
| FromGate (r : Response)
| FromHandler (st : Z) (b : CacheBody).

(** An awaited call that may throw, inside asynchronous code. *)
Definition lift {A} (o : Outcome A) : M A := fun w => (o, w).

Module Cache.

(** [setCache(kv, key, value, ttl = 3600)] *)
Definition setCache (key val : string) (ttl : option Z) : M CacheSetResult :=
  let ttl := default 3600 ttl in
  KV.put key val ttl;;
  mret {| stored_status := "stored"; stored_key := key; stored_ttl := ttl |}.

(** [getCache(kv, key)] *)
Definition getCache (key : string) : M CacheGetResult :=
  v ← KV.get key;
  mret {| got_value := v;
          found := match v with Some _ => true | None => false end;
          got_key := key |}.

(** [z.string().min(1).max(512)] *)
Definition key_schema (key : string) : bool :=
  (1 <=? Js.length key) && (Js.length key <=? 512).

(** [setSchema], on a body of the right types. *)
Definition setSchema (b : SetBody) : bool :=
  key_schema (body_key b)
  && match body_ttl b with
     | Some ttl => 0 <? ttl
     | None => true
     end.

(** [typeof value === "string" ? value : JSON.stringify(value)] *)
Definition serialize (value : JsonValue) : string :=
  match value with
  | JString s => s
  | JObject stringified => stringified
  end.

Section Worker.
Context `{viem : Viem}.
(** The message of the first issue the validator reports for a key. *)
Variable key_issue : string -> string.

Definition set_handler (env : CacheEnv) (b : SetBody) (timestamp : string) : M CacheReply :=
  try_catch
    (if negb (MEMORY_KV env)
     then mret (FromHandler 500 (CacheError "Configuration Error" "MEMORY_KV not configured"))
     else
       let serializedValue := serialize (body_value b) in
       storeResult ← setCache (body_key b) serializedValue (body_ttl b);
       let privateKey := BASIS_PRIVATE_KEY (bindings env) in
       if Js.falsy privateKey
       then mret (FromHandler 500
                    (CacheError "Configuration Error"
                       "BASIS_PRIVATE_KEY not configured. Cannot create witness proof."))
       else
         proof ← lift (signProofOfCustody (body_key b) serializedValue privateKey timestamp);
         mret (FromHandler 200
                 (CacheSetPacket (stored_key storeResult) (stored_status storeResult)
                    (stored_ttl storeResult) proof)))
    (fun error =>
       mret (FromHandler 500
               (CacheError "Internal Server Error"
                  (Js.or_default (Some (message error)) "Failed to store data in cache")))).

(** [app.post("/set", x402, zValidator("json", setSchema), handler)] *)
Definition set_route (env : CacheEnv) (req : SetRequest) (timestamp : string) : M CacheReply :=
  gate ← Mock.x402 (bindings env) (set_authorization req);
  match gate with
  | Respond r => mret (FromGate r)
  | Next _ =>
      match set_body req with
      | Some b =>
          if setSchema b then set_handler env b timestamp
          else mret (FromHandler 400 CacheInvalidBody)
      | None => mret (FromHandler 400 CacheInvalidBody)
      end
  end.

Definition get_handler (env : CacheEnv) (key : option string) (timestamp : string)
  : M CacheReply :=
  if Js.falsy key
  then mret (FromHandler 400
               (CacheError "Bad Request" "Missing required query parameter: key"))
  else
    let key := default "" key in
    if negb (key_schema key)
    then mret (FromHandler 400 (CacheError "Bad Request" (key_issue key)))
    else
      let validatedKey := key in
      try_catch
        (if negb (MEMORY_KV env)
         then mret (FromHandler 500 (CacheError "Configuration Error" "MEMORY_KV not configured"))
         else
           getResult ← getCache validatedKey;
           if negb (found getResult)
           then mret (FromHandler 404
                        (CacheError "Not Found" ("No data found for key: " +:+ validatedKey)))
           else
             let privateKey := BASIS_PRIVATE_KEY (bindings env) in
             if Js.falsy privateKey
             then mret (FromHandler 500
                          (CacheError "Configuration Error"
                             "BASIS_PRIVATE_KEY not configured. Cannot create witness proof."))
             else
               proof ← lift (signDataIntegrity validatedKey (default "" (got_value getResult))
                               privateKey timestamp);
               mret (FromHandler 200
                       (CacheGetPacket (got_key getResult) (got_value getResult)
                          (found getResult) proof)))
        (fun error =>
           mret (FromHandler 500
                   (CacheError "Internal Server Error"
                      (Js.or_default (Some (message error))
                         "Failed to retrieve data from cache")))).

(** [app.get("/get", x402, handler)] *)
Definition get_route (env : CacheEnv) (req : GetRequest) (timestamp : string) : M CacheReply :=
  gate ← Mock.x402 (bindings env) (get_authorization req);
  match gate with
  | Respond r => mret (FromGate r)
  | Next _ => get_handler env (query_key req) timestamp
  end.

End Worker.

End Cache.

(** ** tools/hash.ts and index-hash.ts: the timestamping worker

    [isHex] is [viem]'s; the nonce is the platform's random UUID. *)

Record TimestampEventResult := {
  event_hash : string;
  registered_at : string;
  original_data : option string }.

Inductive HashBody :=
| HashError (err msg : string)
| HashPacket (hash_of_event registered nonce : string) (proof : WitnessProof).

Module HashTool.

Section Tool.
Context `{viem : Viem}.
Variable isHex : string -> bool.

(** [registeredAt] is the clock reading at the call. *)
Definition timestampEvent (data : string) (isAlreadyHashed : bool) (registeredAt : string)
  : Outcome TimestampEventResult :=
  if String.eqb data "" || (Js.length data =? 0)
  then Throw (Error "Data cannot be empty")
  else
    if isAlreadyHashed
    then
      if negb (Js.startsWith "0x" data)
      then Throw (Error "Hash must start with '0x' prefix")
      else if negb (isHex data)
      then Throw (Error "Invalid hex format for hash")
      else if negb (Js.length data =? 66)
      then Throw (Error ("Invalid hash length. Expected 66 characters (0x + 64 hex), got "
                         +:+ pretty (Js.length data)))
      else Ret {| event_hash := data; registered_at := registeredAt; original_data := None |}
    else
      Ret {| event_hash := keccak256_of data;
             registered_at := registeredAt;
             original_data := Some data |}.

Definition validateHashFormat (h : string) : bool :=
  Js.startsWith "0x" h && (Js.length h =? 66) && isHex h.

(** The handler of [/timestamp], past the gate and the validator. *)
Definition timestamp_handler (env : Env) (data : string) (is_hash : bool)
    (registeredAt nonce proofTimestamp : string) : Z * HashBody :=
  match
    timestampResult ← timestampEvent data is_hash registeredAt;
    let privateKey := BASIS_PRIVATE_KEY env in
    if Js.falsy privateKey
    then Ret (500, HashError "Configuration Error"
                     "BASIS_PRIVATE_KEY not configured. Cannot create witness proof.")
    else
      proof ← signTimeline (event_hash timestampResult) (registered_at timestampResult)
                nonce privateKey proofTimestamp;
      Ret (200, HashPacket (event_hash timestampResult) (registered_at timestampResult)
                  nonce proof)
  with
  | Ret reply => reply
  | Throw error =>
      let errorMessage :=
        Js.or_default (Some (message error)) "Failed to create timestamp receipt" in
      let statusCode :=
        if Js.includes "must start with" errorMessage
           || Js.includes "Invalid hash" errorMessage
           || Js.includes "cannot be empty" errorMessage
        then 400 else 500 in
      (statusCode, HashError "Timestamp Error" errorMessage)
  end.

End Tool.

End HashTool.

(** Values for running the cache and timestamping code on examples. *)
Module Sample4.

Definition cache_env : CacheEnv := {| bindings := Sample.env; MEMORY_KV := true |}.

(** The cache worker without its signing key. *)
Definition cache_env_no_key : CacheEnv :=
  {| bindings := {| BASIS_WALLET_ADDRESS := Some Sample.WALLET;
                    BASIS_KV := false;
                    BASIS_PRIVATE_KEY := None |};
     MEMORY_KV := true |}.

Definition plan : SetBody :=
  {| body_key := "agent:42:plan"; body_value := JString "buy milk"; body_ttl := Some 120 |}.

Definition set_request : SetRequest :=
  {| set_authorization := Some Sample.TX; set_body := Some plan |}.

Definition get_request : GetRequest :=
  {| get_authorization := Some Sample.TX; query_key := Some "agent:42:plan" |}.

(** [viem]'s strict [isHex]: ["0x"], then hexadecimal characters only. *)
Definition isHex (s : string) : bool :=
  Js.startsWith "0x" s && Js.all_hex (String.substring 2 (String.length s) s).

Definition key_issue (key : string) : string :=
  "String must contain at most 512 character(s)".

End Sample4.

(** * Properties *)

(** ** The chain verifier *)

Section ChainVerifierFacts.
Context `{viem : Viem}.
Variable ledger : Ledger.

(** [verifyPayment] always resolves; it queries the ledger exactly when
    the hash is not a placeholder, and touches nothing else. *)
Lemma verifyPayment_run txHash expectedRecipient w :
  verifyPayment ledger txHash expectedRecipient w =
    (Ret (verdict ledger txHash expectedRecipient),
     if isTestHash txHash then w else emit (EvRpc txHash) w).
Proof.
  unfold verifyPayment, verdict.
  destruct (isTestHash txHash); [reflexivity|].
  unfold mbind, M_bind, bind, getTransactionReceipt; simpl.
  destruct (ledger txHash); reflexivity.
Qed.

(** The gate's call of the verifier: the call is recorded first. *)
Lemma call_verifyPayment_run txHash wallet w :
  call_verifyPayment ledger txHash wallet w =
    (Ret (verdict ledger txHash wallet),
     let w1 := emit (EvVerify txHash wallet) w in
     if isTestHash txHash then w1 else emit (EvRpc txHash) w1).
Proof. unfold call_verifyPayment. apply verifyPayment_run. Qed.

(** The loop returns the first transfer to the recipient that reaches
    the minimum. *)
Lemma find_valid_transfer_first rcpt ls :
  find_valid_transfer rcpt ls =
    head (filter (fun t => MIN_PAYMENT_AMOUNT <= transfer_value t) (transfers_to rcpt ls)).
Proof.
  unfold transfers_to.
  induction ls as [|log rest IH]; [reflexivity|].
  cbn [find_valid_transfer omap list_omap].
  destruct (decodeUSDCLog log) as [t|]; [|exact IH].
  rewrite filter_cons. case_bool_decide as Hto.
  - rewrite decide_True by exact Hto. rewrite filter_cons.
    destruct (Z.leb_spec MIN_PAYMENT_AMOUNT (transfer_value t)) as [Hge|Hlt].
    + rewrite decide_True by exact Hge. reflexivity.
    + rewrite decide_False by lia. exact IH.
  - rewrite decide_False by exact Hto. exact IH.
Qed.

End ChainVerifierFacts.

(** ** The production gate *)

Ltac run_gate :=
  unfold acquire_lock, mark_used, try_catch,
    KV.get, KV.put, KV.delete, KV.op, mbind, M_bind, bind, mret, M_ret, ret.

Ltac simpl_gate :=
  repeat first
    [ progress cbn [negb faults kv now trace emit set_faults set_kv KV.after]
    | rewrite call_verifyPayment_run
    | rewrite head_lookup
    | rewrite lookup_tail ].

Ltac case_fault n w :=
  let H := fresh "Hfault" in
  destruct (faults w !! n) as [[|]|] eqn:H;
  try (exfalso; unfold succeeds, fails in *; congruence).

Section GateFacts.
Context `{viem : Viem}.
Variable ledger : Ledger.

(** What the format check asks of a header. *)
Lemma header_accepted_inv h :
  header_accepted (Some h) = true ->
  bool_decide (h = "") = false /\ Js.startsWith "0x" h = true /\ (Js.length h =? 66) = true.
Proof.
  unfold header_accepted. change (default "" (Some h)) with h. cbn [Js.falsy].
  intros H. apply andb_prop in H as [H Hlen]. apply andb_prop in H as [Hne Hpre].
  apply negb_true_iff in Hne. auto.
Qed.

(** On a configured worker an accepted header takes the gate to its core. *)
Lemma x402_accepted env wallet h w :
  header_accepted (Some h) = true ->
  configured env wallet ->
  x402 ledger env (Some h) w = gate_core ledger wallet h w.
Proof.
  intros Hh (Hw & Hne & Hkv).
  apply header_accepted_inv in Hh as (He & Hpre & Hlen).
  unfold x402. cbv zeta. change (default "" (Some h)) with h.
  cbn [Js.falsy]. rewrite He, Hpre, Hlen, Hw, Hkv. cbn [Js.falsy default negb orb].
  rewrite bool_decide_eq_false_2 by exact Hne. reflexivity.
Qed.

(** A header the format check refuses ends the request at once. *)
Lemma x402_refused env authHeader w :
  header_accepted authHeader = false ->
  x402 ledger env authHeader w = (Ret (Respond (payment_required env)), w).
Proof.
  unfold header_accepted, x402. cbv zeta. intros H.
  destruct (Js.falsy authHeader); [reflexivity|].
  cbn [negb andb orb] in *.
  destruct (Js.startsWith "0x" (default "" authHeader)); [|reflexivity].
  cbn [negb andb orb] in *. rewrite H. reflexivity.
Qed.

(** What any execution of the gate core does to the store and the
    clock: it never throws, keeps the clock, touches no key but its
    own, and touches nothing when its key holds a live record. *)
Lemma gate_core_frame wallet h w r w' :
  gate_core ledger wallet h w = (r, w') ->
  (exists g, r = Ret g) /\
  now w' = now w /\
  (forall k, k <> h -> kv w' !! k = kv w !! k) /\
  (is_Some (KV.visible (kv w) (now w) h) ->
   kv w' = kv w /\ forall ctx, r <> Ret (Next ctx)).
Proof.
  unfold gate_core. run_gate. simpl_gate.
  case_fault 0%nat w;
    (destruct (KV.visible (kv w) (now w) h) as [v|] eqn:Hv;
     [ intros [= <- <-]; cbn;
       split; [eauto|split; [reflexivity|split; [reflexivity|]]];
       intros _; split; [reflexivity|discriminate] |]);
    try (intros [= <- <-]; cbn;
         split; [eauto|split; [reflexivity|split; [reflexivity|]]];
         intros [? [=]]);
    simpl_gate;
    (case_fault 1%nat w; simpl_gate;
     destruct (valid (verdict ledger h wallet)); simpl_gate;
     destruct (isTestHash h); simpl_gate;
     case_fault 2%nat w;
     intros [= <- <-]; cbn;
     (split; [eauto|split; [reflexivity|split; [|intros [? [=]]]]]);
     intros k Hk; rewrite ?lookup_delete_ne, ?lookup_insert_ne by congruence;
     reflexivity).
Qed.

(** The same for the whole gate, on any request and configuration. *)
Lemma x402_frame env authHeader w r w' :
  x402 ledger env authHeader w = (r, w') ->
  (exists g, r = Ret g) /\
  now w' = now w /\
  (forall k, authHeader <> Some k -> kv w' !! k = kv w !! k) /\
  (forall k, authHeader = Some k -> is_Some (KV.visible (kv w) (now w) k) ->
   kv w' = kv w /\ forall ctx, r <> Ret (Next ctx)).
Proof.
  destruct (header_accepted authHeader) eqn:Hacc.
  2:{ rewrite x402_refused by exact Hacc. intros [= <- <-].
      repeat split; eauto; try discriminate. }
  destruct authHeader as [h|]; [|discriminate].
  pose proof (header_accepted_inv h Hacc) as (He & Hpre & Hlen).
  unfold x402. cbv zeta. change (default "" (Some h)) with h.
  cbn [Js.falsy]. rewrite He, Hpre, Hlen. cbn [negb orb].
  destruct (Js.falsy (BASIS_WALLET_ADDRESS env)).
  { intros [= <- <-]. repeat split; eauto; try discriminate. }
  destruct (BASIS_KV env); cbn [negb].
  2:{ intros [= <- <-]. repeat split; eauto; try discriminate. }
  intros Hrun. apply gate_core_frame in Hrun as (Hg & Hnow & Hother & Hlive).
  split; [exact Hg|]. split; [exact Hnow|]. split.
  - intros k Hk. apply Hother. congruence.
  - intros k [= <-]. exact Hlive.
Qed.

(** When the gate passes a request on, its identifier had no live
    record, the payment was verified, no context variable is stored,
    and the record now holds "used" for [REPLAY_TTL] seconds. *)
Lemma gate_core_next wallet h w ctx w' :
  gate_core ledger wallet h w = (Ret (Next ctx), w') ->
  KV.visible (kv w) (now w) h = None
  /\ valid (verdict ledger h wallet) = true
  /\ ctx = Hono.unset
  /\ kv w' !! h = Some {| value := "used"; expiration := now w + REPLAY_TTL |}.
Proof.
  unfold gate_core. run_gate. simpl_gate.
  case_fault 0%nat w;
    (destruct (KV.visible (kv w) (now w) h) as [v|] eqn:Hv; [discriminate|]);
    try discriminate; simpl_gate;
    (case_fault 1%nat w; simpl_gate; try discriminate;
     destruct (valid (verdict ledger h wallet)) eqn:Hvalid; simpl_gate;
     destruct (isTestHash h); simpl_gate;
     case_fault 2%nat w; try discriminate;
     intros [= <- <-]; cbn; rewrite lookup_insert_eq; auto).
Qed.

(** The gate passes a request on only from its core. *)
Lemma x402_next env authHeader w ctx w' :
  x402 ledger env authHeader w = (Ret (Next ctx), w') ->
  exists h wallet,
    authHeader = Some h
    /\ header_accepted (Some h) = true
    /\ configured env wallet
    /\ gate_core ledger wallet h w = (Ret (Next ctx), w').
Proof.
  destruct (header_accepted authHeader) eqn:Hacc.
  2:{ rewrite x402_refused by exact Hacc. discriminate. }
  destruct authHeader as [h|]; [|discriminate].
  pose proof (header_accepted_inv h Hacc) as (He & Hpre & Hlen).
  unfold x402. cbv zeta. change (default "" (Some h)) with h.
  cbn [Js.falsy]. rewrite He, Hpre, Hlen. cbn [negb orb].
  unfold mret, M_ret, ret.
  destruct (BASIS_WALLET_ADDRESS env) as [wallet|] eqn:Hw;
    cbn [Js.falsy default]; [|discriminate].
  destruct (bool_decide (wallet = "")) eqn:Hne; [discriminate|].
  apply bool_decide_eq_false_1 in Hne.
  destruct (BASIS_KV env) eqn:Hkv; cbn [negb]; [|discriminate].
  intros Hrun. exists h, wallet. repeat split; assumption.
Qed.

(** A placeholder hash is never valid. *)
Lemma verdict_test_hash h wallet :
  isTestHash h = true -> valid (verdict ledger h wallet) = false.
Proof. intros Ht. unfold verdict. rewrite Ht. reflexivity. Qed.

(** Every execution of the gate core has one of the listed effects. *)
Lemma gate_core_effects wallet h w r w' :
  gate_core ledger wallet h w = (r, w') ->
  exists evs, trace w' = trace w ++ evs /\ evs ∈ gate_effects wallet h.
Proof.
  unfold gate_core, gate_effects. run_gate. simpl_gate.
  destruct (isTestHash h) eqn:Ht;
    (case_fault 0%nat w;
     (destruct (KV.visible (kv w) (now w) h) as [v|] eqn:Hv;
      [ intros [= <- <-]; cbn; eexists; split; [reflexivity|]; repeat constructor |]);
     try (intros [= <- <-]; cbn; eexists; split; [reflexivity|]; repeat constructor);
     simpl_gate;
     (case_fault 1%nat w; simpl_gate; rewrite ?Ht;
      first [ rewrite ?(verdict_test_hash h wallet Ht); progress simpl_gate
            | destruct (valid (verdict ledger h wallet)); simpl_gate
            | idtac ];
      case_fault 2%nat w;
      intros [= <- <-]; cbn; rewrite <- ?app_assoc; cbn;
      eexists; (split; [reflexivity|]); repeat constructor)).
Qed.

(** The same for the whole gate: no effect at all, or one of the listed. *)
Lemma x402_effects env authHeader w r w' :
  x402 ledger env authHeader w = (r, w') ->
  exists evs, trace w' = trace w ++ evs /\
    (evs = [] \/
     exists h, authHeader = Some h /\
               evs ∈ gate_effects (default "" (BASIS_WALLET_ADDRESS env)) h).
Proof.
  destruct (header_accepted authHeader) eqn:Hacc.
  2:{ rewrite x402_refused by exact Hacc. intros [= <- <-].
      exists []. rewrite app_nil_r. auto. }
  destruct authHeader as [h|]; [|discriminate].
  pose proof (header_accepted_inv h Hacc) as (He & Hpre & Hlen).
  unfold x402. cbv zeta. change (default "" (Some h)) with h.
  cbn [Js.falsy]. rewrite He, Hpre, Hlen. cbn [negb orb].
  destruct (Js.falsy (BASIS_WALLET_ADDRESS env)).
  { intros [= <- <-]. exists []. rewrite app_nil_r. auto. }
  destruct (BASIS_KV env); cbn [negb].
  2:{ intros [= <- <-]. exists []. rewrite app_nil_r. auto. }
  intros Hrun. apply gate_core_effects in Hrun as (evs & Htr & Hin).
  exists evs. split; [exact Htr|]. right. eauto.
Qed.

End GateFacts.

(** C10: for the literal test identifier [0x1234...cdef] the verifier
    resolves to Invalid and leaves the world as it was: no ledger query
    is issued (no [EvRpc] is recorded), whatever the ledger, the
    recipient and the state.  Nor does any execution of the gate with
    that identifier query the ledger. *)
Theorem verifyPayment_test_hash_no_rpc `{viem : Viem} (ledger : Ledger)
    (expectedRecipient : string) (w : World) :
  verifyPayment ledger TEST_HASH expectedRecipient w =
    (Ret {| valid := false;
            walletAddress := None;
            error := Some "Invalid transaction hash: This appears to be a test/placeholder hash. Please use a real transaction hash from Base Mainnet." |},
     w)
  /\ forall env, exists evs,
       trace (snd (x402 ledger env (Some TEST_HASH) w)) = trace w ++ evs
       /\ forall txHash, EvRpc txHash ∉ evs.
Proof.
  split.
  - rewrite verifyPayment_run. unfold verdict.
    change (isTestHash TEST_HASH) with true. reflexivity.
  - intros env.
    destruct (x402 ledger env (Some TEST_HASH) w) as [r w'] eqn:Hrun.
    apply x402_effects in Hrun as (evs & Htrace & Hshape).
    exists evs. split; [exact Htrace|]. intros txHash Hin.
    destruct Hshape as [->|(h & [= <-] & Hshape)]; [inversion Hin|].
    unfold gate_effects in Hshape. change (isTestHash TEST_HASH) with true in Hshape.
    cbn in Hshape.
    repeat (apply elem_of_cons in Hshape as [->|Hshape]);
      try (inversion Hshape; fail);
      repeat (apply elem_of_cons in Hin as [Hin|Hin]; [discriminate|]);
      inversion Hin.
Qed.

(** C7, as the code has it: when every decodable USDC transfer to the
    recipient (addresses compared in lower case) carries fewer than 1000
    units, verification is Invalid; when the receipt reports success and
    the first decodable transfer to the recipient carries at least 1000
    units, verification is Valid and the payer is that transfer's
    source. *)
Theorem verifyPayment_minimum_boundary `{viem : Viem} (ledger : Ledger)
    (txHash rcpt : string) (receipt : Receipt) (w : World) :
  isTestHash txHash = false ->
  ledger txHash = RpcReceipt receipt ->
  ((forall t, t ∈ transfers_to rcpt (logs receipt) -> transfer_value t < 1000) ->
   exists msg,
     verifyPayment ledger txHash rcpt w = (Ret (invalid msg), emit (EvRpc txHash) w))
  /\
  (forall t rest,
     status receipt = "success" ->
     transfers_to rcpt (logs receipt) = t :: rest ->
     1000 <= transfer_value t ->
     verifyPayment ledger txHash rcpt w =
       (Ret {| valid := true; walletAddress := Some (from t); error := None |},
        emit (EvRpc txHash) w)).
Proof.
  intros Htest Hledger.
  rewrite verifyPayment_run. unfold verdict. rewrite Htest, Hledger.
  split.
  - intros Hsmall.
    assert (Hnone : find_valid_transfer rcpt (logs receipt) = None).
    { rewrite find_valid_transfer_first.
      destruct (filter _ (transfers_to rcpt (logs receipt))) as [|t l] eqn:Hf; [reflexivity|].
      assert (Hin : t ∈ filter (fun t => MIN_PAYMENT_AMOUNT <= transfer_value t)
                          (transfers_to rcpt (logs receipt))) by (rewrite Hf; left).
      apply list_elem_of_filter in Hin as [Hge Hin].
      specialize (Hsmall t Hin). unfold MIN_PAYMENT_AMOUNT in Hge. lia. }
    unfold check_receipt. rewrite Hnone.
    destruct (negb _); [eauto|].
    destruct (logs receipt); eauto.
  - intros t rest Hok Hts Hge.
    assert (Hfound : find_valid_transfer rcpt (logs receipt) = Some t).
    { rewrite find_valid_transfer_first, Hts, filter_cons.
      rewrite decide_True by (unfold MIN_PAYMENT_AMOUNT; lia). reflexivity. }
    unfold check_receipt. rewrite Hok, Hfound. simpl.
    destruct (logs receipt) eqn:Hl; [|reflexivity].
    unfold transfers_to in Hts. simpl in Hts. discriminate.
Qed.

Lemma verifyPayment_minimum_boundary_witness :
  (exists msg,
     verifyPayment (viem := Sample.viem)
       (Sample.ledger_with [Sample.transfer_log Sample.PAYER Sample.WALLET Sample.word_999])
       Sample.TX Sample.wallet_lower Sample.world0
     = (Ret (invalid msg), emit (EvRpc Sample.TX) Sample.world0))
  /\
  verifyPayment (viem := Sample.viem) Sample.paid Sample.TX Sample.wallet_lower Sample.world0
  = (Ret {| valid := true; walletAddress := Some Sample.PAYER; error := None |},
     emit (EvRpc Sample.TX) Sample.world0).
Proof.
  split.
  - refine (proj1 (verifyPayment_minimum_boundary (viem := Sample.viem)
             (Sample.ledger_with [Sample.transfer_log Sample.PAYER Sample.WALLET Sample.word_999])
             Sample.TX Sample.wallet_lower
             {| status := "success";
                logs := [Sample.transfer_log Sample.PAYER Sample.WALLET Sample.word_999] |}
             Sample.world0 eq_refl eq_refl) _).
    intros t Ht. vm_compute in Ht.
    apply list_elem_of_singleton in Ht. subst t. reflexivity.
  - exact (proj2 (verifyPayment_minimum_boundary (viem := Sample.viem)
             Sample.paid Sample.TX Sample.wallet_lower
             {| status := "success";
                logs := [Sample.transfer_log Sample.PAYER Sample.WALLET Sample.word_1000] |}
             Sample.world0 eq_refl eq_refl)
           {| from := Sample.PAYER; to := Sample.WALLET; transfer_value := 1000 |} []
           eq_refl eq_refl ltac:(simpl; lia)).
Defined.

(** C7 as stated fails: the first decodable transfer to the recipient
    carries exactly 999 units, and verification is Valid all the same,
    on the 5000-unit transfer that follows it. *)
Lemma verifyPayment_short_transfer_then_full :
  head (transfers_to (viem := Sample.viem) Sample.WALLET Sample.short_then_full)
  = Some {| from := Sample.PAYER; to := Sample.WALLET; transfer_value := 999 |}
  /\
  verifyPayment (viem := Sample.viem) (Sample.ledger_with Sample.short_then_full)
    Sample.TX Sample.WALLET Sample.world0
  = (Ret {| valid := true; walletAddress := Some Sample.OTHER_PAYER; error := None |},
     emit (EvRpc Sample.TX) Sample.world0).
Proof. split; reflexivity. Qed.

(** ** The gate's decisions *)

(** C3, as the code has it: a header that is absent, empty, not
    ["0x"]-prefixed or not 66 characters long is answered with
    PaymentRequired (HTTP 402) and the world is untouched: no store
    operation and no verifier call. *)
Theorem x402_refuses_malformed_header `{viem : Viem} (ledger : Ledger)
    (env : Env) (authHeader : option string) (w : World) :
  header_accepted authHeader = false ->
  x402 ledger env authHeader w = (Ret (Respond (payment_required env)), w)
  /\ http_status (payment_required env) = 402.
Proof. intros H. split; [apply x402_refused, H|reflexivity]. Qed.

Lemma x402_refuses_malformed_header_witness :
  x402 (viem := Sample.viem) Sample.paid Sample.env (Some "0x1234") Sample.world0
  = (Ret (Respond (payment_required Sample.env)), Sample.world0)
  /\ http_status (payment_required Sample.env) = 402.
Proof.
  exact (x402_refuses_malformed_header (viem := Sample.viem) Sample.paid Sample.env
           (Some "0x1234") Sample.world0 eq_refl).
Defined.

(** Every string the pattern [^0x[0-9a-fA-F]{64}$] matches passes the
    gate's format check; the converse fails (see below). *)
Lemma hexPattern_header_accepted (h : string) :
  Js.hexPattern_test h = true -> header_accepted (Some h) = true.
Proof.
  unfold Js.hexPattern_test, header_accepted.
  change (default "" (Some h)) with h.
  intros H. apply andb_prop in H as [Hpre H]. rewrite Hpre.
  destruct h as [|a [|b rest]]; try discriminate.
  apply andb_prop in H as [Hlen _]. apply Nat.eqb_eq in Hlen.
  unfold Js.length. cbn [String.length Js.falsy]. rewrite Hlen. reflexivity.
Qed.

(** C3 as stated fails: a 66-character ["0x"] header whose 64 trailing
    characters are not hexadecimal does not match the pattern, yet the
    gate reads the store, writes and deletes the lock and calls the
    verifier, and answers "Payment Verification Failed". *)
Lemma x402_non_hex_header_reaches_store :
  Js.hexPattern_test Sample.NOT_HEX = false
  /\ fst (x402 (viem := Sample.viem) Sample.paid Sample.env (Some Sample.NOT_HEX) Sample.world0)
     = Ret (Respond (verification_failed
                       (classify_error Sample.NOT_HEX
                          {| name := "TransactionReceiptNotFoundError";
                             message := "Transaction receipt could not be found." |})
                       Sample.WALLET))
  /\ trace (snd (x402 (viem := Sample.viem) Sample.paid Sample.env (Some Sample.NOT_HEX) Sample.world0))
     = [EvKvGet Sample.NOT_HEX; EvKvPut Sample.NOT_HEX "pending" 300;
        EvVerify Sample.NOT_HEX Sample.WALLET; EvRpc Sample.NOT_HEX;
        EvKvDelete Sample.NOT_HEX].
Proof. repeat split; vm_compute; reflexivity. Qed.

(** C1: when the store holds a live record for the transaction
    identifier (whatever its value, so "pending" and "used" alike), a
    request with that identifier is refused, the store is left as it
    was, and no store operation other than the read is issued: no put
    and no delete.  On a configured worker whose read of the store
    succeeds the answer is ReplayDetected: HTTP 402, "Payment Reuse
    Detected". *)
Theorem x402_rejects_existing_record `{viem : Viem} (ledger : Ledger)
    (env : Env) (txHash v : string) (w : World) :
  header_accepted (Some txHash) = true ->
  KV.visible (kv w) (now w) txHash = Some v ->
  exists r w' evs,
    x402 ledger env (Some txHash) w = (Ret (Respond r), w')
    /\ kv w' = kv w
    /\ trace w' = trace w ++ evs
    /\ (evs = [] \/ evs = [EvKvGet txHash])
    /\ (forall wallet,
          configured env wallet ->
          succeeds 0 w ->
          evs = [EvKvGet txHash]
          /\ r = json (ErrorBody "Payment Reuse Detected"
                         "This transaction hash has already been used. Each payment can only be used once."
                         None) 402).
Proof.
  intros Hh Hv.
  pose proof (header_accepted_inv txHash Hh) as (He & Hpre & Hlen).
  unfold x402. cbv zeta. change (default "" (Some txHash)) with txHash.
  cbn [Js.falsy]. rewrite He, Hpre, Hlen. cbn [negb orb].
  unfold mret, M_ret, ret.
  destruct (Js.falsy (BASIS_WALLET_ADDRESS env)) eqn:Hw.
  { exists (configuration_error "BASIS_WALLET_ADDRESS not configured"), w, [].
    rewrite app_nil_r. do 3 (split; [reflexivity|]). split; [auto|].
    intros wallet (Hw' & Hne & _) _. rewrite Hw' in Hw. cbn in Hw.
    apply bool_decide_eq_true_1 in Hw. contradiction. }
  destruct (BASIS_KV env) eqn:Hkv; cbn [negb].
  2:{ exists (configuration_error "BASIS_KV not configured"), w, [].
      rewrite app_nil_r. do 3 (split; [reflexivity|]). split; [auto|].
      intros wallet (_ & _ & Hkv') _. congruence. }
  run_gate. simpl_gate.
  case_fault 0%nat w; rewrite ?Hv; do 3 eexists;
    (split; [reflexivity|]); cbn;
    (split; [reflexivity|]); (split; [reflexivity|]); (split; [auto|]);
    intros wallet Hc Hok; unfold succeeds in Hok; try congruence; auto.
Qed.

Lemma x402_rejects_existing_record_witness :
  exists r w' evs,
    x402 (viem := Sample.viem) Sample.paid Sample.env (Some Sample.TX) Sample.world_used
    = (Ret (Respond r), w')
    /\ kv w' = kv Sample.world_used
    /\ trace w' = trace Sample.world_used ++ evs
    /\ (evs = [] \/ evs = [EvKvGet Sample.TX])
    /\ (forall wallet,
          configured Sample.env wallet ->
          succeeds 0 Sample.world_used ->
          evs = [EvKvGet Sample.TX]
          /\ r = json (ErrorBody "Payment Reuse Detected"
                         "This transaction hash has already been used. Each payment can only be used once."
                         None) 402).
Proof.
  apply (x402_rejects_existing_record (viem := Sample.viem) Sample.paid Sample.env
           Sample.TX "used" Sample.world_used).
  - reflexivity.
  - vm_compute. reflexivity.
Defined.

(** C5: on a configured worker, for an accepted identifier with no live
    record, when the read and the write of "pending" succeed, the
    verifier reports the payment valid and the write of "used" throws,
    the gate answers InternalError (HTTP 500) and never reaches
    [next()]: the [/verify_url] route sends that response whatever the
    downstream handler would have done. *)
Theorem x402_fails_closed `{viem : Viem} (ledger : Ledger)
    (env : Env) (wallet txHash : string) (w : World) :
  header_accepted (Some txHash) = true ->
  configured env wallet ->
  KV.visible (kv w) (now w) txHash = None ->
  succeeds 0 w -> succeeds 1 w ->
  valid (verdict ledger txHash wallet) = true ->
  fails 2 w ->
  exists w',
    x402 ledger env (Some txHash) w = (Ret (Respond usage_not_recorded), w')
    /\ usage_not_recorded
       = json (ErrorBody "Internal Server Error"
                 "Payment verified but failed to record usage. Please contact support."
                 None) 500
    /\ (forall performFetch req timestamp,
          authorization req = Some txHash ->
          verify_url ledger performFetch env req timestamp w = (Ret usage_not_recorded, w')).
Proof.
  intros Hh Hc Hv H0 H1 Hvalid H2.
  assert (Hrun : gate_core ledger wallet txHash w =
                 (Ret (Respond usage_not_recorded),
                  KV.after (EvKvPut txHash "used" REPLAY_TTL)
                    (emit (EvRpc txHash)
                       (emit (EvVerify txHash wallet)
                          (set_kv (<[txHash := {| value := "pending";
                                                  expiration := now w + PENDING_TTL |}]> (kv w))
                             (KV.after (EvKvPut txHash "pending" PENDING_TTL)
                                (KV.after (EvKvGet txHash) w))))))).
  { unfold gate_core. run_gate. simpl_gate.
    case_fault 0%nat w; rewrite Hv; simpl_gate;
      (case_fault 1%nat w; simpl_gate; rewrite Hvalid; simpl_gate;
       (destruct (isTestHash txHash) eqn:Ht;
        [ rewrite (verdict_test_hash ledger txHash wallet Ht) in Hvalid; discriminate |]);
       simpl_gate; case_fault 2%nat w; reflexivity). }
  eexists. split; [|split; [reflexivity|]].
  - rewrite (x402_accepted ledger env wallet) by assumption. exact Hrun.
  - intros performFetch req timestamp Hreq. unfold verify_url.
    unfold mbind at 1, M_bind, bind. rewrite Hreq.
    rewrite (x402_accepted ledger env wallet) by assumption. rewrite Hrun. reflexivity.
Qed.

Lemma x402_fails_closed_witness :
  exists w',
    x402 (viem := Sample.viem) Sample.paid Sample.env (Some Sample.TX)
      (set_faults [false; false; true] Sample.world0)
    = (Ret (Respond usage_not_recorded), w')
    /\ usage_not_recorded
       = json (ErrorBody "Internal Server Error"
                 "Payment verified but failed to record usage. Please contact support."
                 None) 500
    /\ (forall performFetch req timestamp,
          authorization req = Some Sample.TX ->
          verify_url (viem := Sample.viem) Sample.paid performFetch Sample.env req timestamp
            (set_faults [false; false; true] Sample.world0)
          = (Ret usage_not_recorded, w')).
Proof.
  apply (x402_fails_closed (viem := Sample.viem) Sample.paid Sample.env
           Sample.WALLET Sample.TX (set_faults [false; false; true] Sample.world0)).
  - reflexivity.
  - repeat split. discriminate.
  - reflexivity.
  - discriminate.
  - discriminate.
  - vm_compute. reflexivity.
  - reflexivity.
Defined.

(** C6: on a configured worker, for an accepted identifier with no live
    record, when the read and the first write succeed, the gate writes
    "pending" with a 300-second expiration and only then calls the
    verifier; the lock record it wrote expires 300 seconds after the
    request.  When the verifier reports the payment valid and the
    second write succeeds, the gate overwrites the record with "used"
    and an 86400-second expiration (it expires 86400 seconds after the
    request) and passes the request on. *)
Theorem x402_pending_then_used `{viem : Viem} (ledger : Ledger)
    (env : Env) (wallet txHash : string) (w : World) :
  header_accepted (Some txHash) = true ->
  configured env wallet ->
  KV.visible (kv w) (now w) txHash = None ->
  succeeds 0 w -> succeeds 1 w ->
  exists r w' rest,
    x402 ledger env (Some txHash) w = (r, w')
    /\ trace w' = trace w ++ [EvKvGet txHash; EvKvPut txHash "pending" 300;
                              EvVerify txHash wallet] ++ rest
    /\ (fails 2 w ->
        kv w' !! txHash = Some {| value := "pending"; expiration := now w + 300 |})
    /\ (valid (verdict ledger txHash wallet) = true ->
        succeeds 2 w ->
        (exists ctx, r = Ret (Next ctx))
        /\ rest = [EvRpc txHash; EvKvPut txHash "used" 86400]
        /\ kv w' !! txHash = Some {| value := "used"; expiration := now w + 86400 |}).
Proof.
  intros Hh Hc Hv H0 H1.
  rewrite (x402_accepted ledger env wallet) by assumption.
  unfold gate_core. run_gate. simpl_gate.
  case_fault 0%nat w; rewrite Hv; simpl_gate;
    (case_fault 1%nat w; simpl_gate;
     (destruct (isTestHash txHash) eqn:Ht;
      [ rewrite (verdict_test_hash ledger txHash wallet Ht)
      | destruct (valid (verdict ledger txHash wallet)) ]);
     simpl_gate;
     (case_fault 2%nat w;
      do 3 eexists; (split; [reflexivity|]);
      cbn; rewrite <- ?app_assoc; cbn;
      (split; [reflexivity|]);
      (split; [intros Hf; unfold fails in Hf;
               first [congruence | rewrite lookup_insert_eq; reflexivity]|]);
      intros Hval Hs; unfold succeeds in Hs;
      first [discriminate | congruence
            | rewrite ?lookup_insert_eq;
              (split; [eexists; reflexivity|]); split; reflexivity])).
Qed.

Lemma x402_pending_then_used_witness :
  exists r w' rest,
    x402 (viem := Sample.viem) Sample.paid Sample.env (Some Sample.TX) Sample.world0 = (r, w')
    /\ trace w' = trace Sample.world0
                  ++ [EvKvGet Sample.TX; EvKvPut Sample.TX "pending" 300;
                      EvVerify Sample.TX Sample.WALLET] ++ rest
    /\ (fails 2 Sample.world0 ->
        kv w' !! Sample.TX
        = Some {| value := "pending"; expiration := now Sample.world0 + 300 |})
    /\ (valid (verdict (viem := Sample.viem) Sample.paid Sample.TX Sample.WALLET) = true ->
        succeeds 2 Sample.world0 ->
        (exists ctx, r = Ret (Next ctx))
        /\ rest = [EvRpc Sample.TX; EvKvPut Sample.TX "used" 86400]
        /\ kv w' !! Sample.TX
           = Some {| value := "used"; expiration := now Sample.world0 + 86400 |}).
Proof.
  apply (x402_pending_then_used (viem := Sample.viem) Sample.paid Sample.env
           Sample.WALLET Sample.TX Sample.world0).
  - reflexivity.
  - repeat split. discriminate.
  - reflexivity.
  - discriminate.
  - discriminate.
Defined.

(** ** Sequential runs *)

Section Runs.
Context `{viem : Viem}.

(** Time never runs backwards. *)
Lemma step_clock w w' : step w w' -> now w <= now w'.
Proof.
  intros [ledger env authHeader fs w0 r w1 Hrun | d w0 Hd].
  - apply x402_frame in Hrun as (_ & Hnow & _). rewrite Hnow. cbn. lia.
  - cbn. lia.
Qed.

Lemma steps_clock w w' : rtc step w w' -> now w <= now w'.
Proof.
  induction 1 as [|w1 w2 w3 Hstep _ IH]; [lia|].
  apply step_clock in Hstep. lia.
Qed.

(** One step keeps every record that is still live when it ends. *)
Lemma step_keeps_live w w' key entry :
  step w w' ->
  kv w !! key = Some entry ->
  now w' < expiration entry ->
  kv w' !! key = Some entry.
Proof.
  intros [ledger env authHeader fs w0 r w1 Hrun | d w0 Hd] Hkey Hlive.
  - apply x402_frame in Hrun as (_ & Hnow & Hother & Hsame).
    cbn [set_faults kv now] in *.
    destruct (decide (authHeader = Some key)) as [Heq|Hne].
    + destruct (Hsame key Heq) as [Hkv _]; [|rewrite Hkv; exact Hkey].
      unfold KV.visible. rewrite Hkey.
      destruct (Z.ltb_spec (now w0) (expiration entry)); [eauto|lia].
    + rewrite (Hother key Hne). exact Hkey.
  - exact Hkey.
Qed.

Lemma steps_keep_live w w' key entry :
  rtc step w w' ->
  kv w !! key = Some entry ->
  now w' < expiration entry ->
  kv w' !! key = Some entry.
Proof.
  induction 1 as [|w1 w2 w3 Hstep Hsteps IH]; [auto|].
  intros Hkey Hlive. apply IH; [|exact Hlive].
  apply (step_keeps_live w1 w2); [exact Hstep|exact Hkey|].
  apply steps_clock in Hsteps. lia.
Qed.

End Runs.

(** C4: in the sequential runs of the production gate (whole gate
    executions, for any request, configuration, ledger answer and store
    faults, interleaved with the passing of time), a record holding
    "used" is neither deleted nor overwritten for as long as its
    expiration lies ahead: it is still there, unchanged and visible to
    readers.  Within one execution, the write of "used" is the last
    store operation: the delete of the failure path never occurs in an
    execution that writes "used". *)
Theorem used_record_persists `{viem : Viem} (w w' : World) (txHash : string) (exp : Z) :
  kv w !! txHash = Some {| value := "used"; expiration := exp |} ->
  rtc step w w' ->
  now w' < exp ->
  kv w' !! txHash = Some {| value := "used"; expiration := exp |}
  /\ KV.visible (kv w') (now w') txHash = Some "used"
  /\ (forall ledger env authHeader r w'',
        x402 ledger env authHeader w' = (r, w'') ->
        exists evs,
          trace w'' = trace w' ++ evs
          /\ forall key ttl, EvKvPut key "used" ttl ∈ evs ->
               last evs = Some (EvKvPut key "used" ttl)
               /\ forall key', EvKvDelete key' ∉ evs).
Proof.
  intros Hused Hsteps Hlive.
  assert (Hkept : kv w' !! txHash = Some {| value := "used"; expiration := exp |})
    by (apply (steps_keep_live w w'); assumption).
  split; [exact Hkept|]. split.
  - unfold KV.visible. rewrite Hkept. cbn.
    destruct (Z.ltb_spec (now w') exp); [reflexivity|lia].
  - intros ledger env authHeader r w'' Hrun.
    apply x402_effects in Hrun as (evs & Htrace & Hshape).
    exists evs. split; [exact Htrace|].
    intros key ttl Hin.
    destruct Hshape as [->|(h & _ & Hshape)]; [inversion Hin|].
    unfold gate_effects in Hshape. destruct (isTestHash h); cbn in Hshape;
    repeat (apply elem_of_cons in Hshape as [->|Hshape]);
      try (inversion Hshape; fail);
      repeat (apply elem_of_cons in Hin as [Heq|Hin]; [try discriminate|]);
      try (inversion Hin; fail).
    injection Heq as -> ->. split; [reflexivity|].
    intros key' Hdel.
    repeat (apply elem_of_cons in Hdel as [Hdel|Hdel]; [discriminate|]).
    inversion Hdel.
Qed.

Lemma used_record_persists_witness :
  kv Sample.world_replayed !! Sample.TX
  = Some {| value := "used"; expiration := 86400 |}
  /\ KV.visible (kv Sample.world_replayed) (now Sample.world_replayed) Sample.TX = Some "used"
  /\ (forall ledger env authHeader r w'',
        x402 (viem := Sample.viem) ledger env authHeader Sample.world_replayed = (r, w'') ->
        exists evs,
          trace w'' = trace Sample.world_replayed ++ evs
          /\ forall key ttl, EvKvPut key "used" ttl ∈ evs ->
               last evs = Some (EvKvPut key "used" ttl)
               /\ forall key', EvKvDelete key' ∉ evs).
Proof.
  apply (used_record_persists (viem := Sample.viem) Sample.world_used
           Sample.world_replayed Sample.TX 86400).
  - vm_compute. reflexivity.
  - eapply rtc_l.
    + apply (step_request (viem := Sample.viem) Sample.paid Sample.env (Some Sample.TX) []
               Sample.world_used
               (fst (x402 (viem := Sample.viem) Sample.paid Sample.env (Some Sample.TX)
                       Sample.world_used))
               (snd (x402 (viem := Sample.viem) Sample.paid Sample.env (Some Sample.TX)
                       Sample.world_used))).
      vm_compute. reflexivity.
    + apply rtc_once. apply (step_tick 82799). lia.
  - vm_compute. reflexivity.
Defined.

(** ** The mock gate *)

(** C2: the scan, cache, calc, hash and badge workers install the mock
    gate, and the mock gate passes every Authorization value that starts
    with ["0x"] and is 66 characters long on to the handler, with the
    world untouched: no store operation, no verifier call.  Presented
    any number of times, the same value passes every time.  Nothing is
    asked of the 64 trailing characters. *)
Theorem mock_gate_admits_any_0x66 `{viem : Viem} (ledger : Ledger)
    (s : Service) (env : Env) (h : string) (w : World) (n : nat) :
  s ∈ [Scan; Cache; Calc; Hash; Badge] ->
  Js.startsWith "0x" h = true ->
  Js.length h = 66 ->
  exists gate,
    middleware ledger (imported_gate s) = Some gate
    /\ gate env (Some h) w
       = (Ret (Next {| wallet_address := None; tx_hash := None |}), w)
    /\ present gate env (replicate n (Some h)) w
       = (replicate n (Ret (Next {| wallet_address := None; tx_hash := None |})), w).
Proof.
  intros Hs Hpre Hlen. exists Mock.x402.
  assert (Hone : forall w0, Mock.x402 env (Some h) w0
                 = (Ret (Next {| wallet_address := None; tx_hash := None |}), w0)).
  { intros w0. unfold Mock.x402, header_accepted.
    change (default "" (Some h)) with h. rewrite Hpre, Hlen.
    destruct h; [discriminate|]. reflexivity. }
  split; [|split; [apply Hone|]].
  - repeat (apply elem_of_cons in Hs as [->|Hs]; [reflexivity|]). inversion Hs.
  - induction n as [|n IH]; [reflexivity|].
    cbn [replicate present]. rewrite Hone, IH. reflexivity.
Qed.

Lemma mock_gate_admits_any_0x66_witness :
  exists gate,
    middleware (viem := Sample.viem) Sample.paid (imported_gate Cache) = Some gate
    /\ gate Sample.env (Some Sample.NOT_HEX) Sample.world0
       = (Ret (Next {| wallet_address := None; tx_hash := None |}), Sample.world0)
    /\ present gate Sample.env (replicate 3 (Some Sample.NOT_HEX)) Sample.world0
       = (replicate 3 (Ret (Next {| wallet_address := None; tx_hash := None |})),
          Sample.world0).
Proof.
  apply (mock_gate_admits_any_0x66 (viem := Sample.viem) Sample.paid Cache Sample.env
           Sample.NOT_HEX Sample.world0 3).
  - apply list_elem_of_further, list_elem_of_here.
  - reflexivity.
  - reflexivity.
Defined.

(** ** The witness signers *)

(** C8, as the code has it: [signContent] and [signRiskAssessment] throw,
    and produce no certificate, when the key is absent or empty, or when
    the key, with ["0x"] put in front of it if it does not start with
    ["0x"], is not ["0x"] followed by 64 hexadecimal characters; they
    throw before the key reaches [privateKeyToAccount].  Every other
    signing function throws when the key is absent or empty. *)
Theorem signers_reject_bad_key `{viem : Viem} (privateKey : option string) :
  Js.falsy privateKey = true
  \/ Js.hexPattern_test (normalizedKey (default "" privateKey)) = false ->
  (forall content url timestamp,
     exists e, signContent content url privateKey timestamp = Throw e
               /\ e ∈ [KEY_MISSING;
                       KEY_BAD_LENGTH (Js.length (normalizedKey (default "" privateKey)));
                       KEY_BAD_CHARACTERS])
  /\
  (forall target score timestamp,
     exists e, signRiskAssessment target score timestamp privateKey = Throw e
               /\ e ∈ [KEY_MISSING;
                       KEY_BAD_LENGTH (Js.length (normalizedKey (default "" privateKey)));
                       KEY_BAD_CHARACTERS])
  /\
  (Js.falsy privateKey = true ->
   forall a b c timestamp,
     signContent_unchecked a b privateKey timestamp = Throw KEY_MISSING
     /\ signProofOfCustody a b privateKey timestamp = Throw KEY_MISSING
     /\ signDataIntegrity a b privateKey timestamp = Throw KEY_MISSING
     /\ signAuditTrail a b c privateKey timestamp = Throw KEY_MISSING
     /\ signBadge a b c privateKey timestamp = Throw KEY_MISSING
     /\ signTimeline a b c privateKey timestamp = Throw KEY_MISSING
     /\ signClassification a b c privateKey timestamp = Throw KEY_MISSING).
Proof.
  intros Hbad. split; [|split].
  - intros content url timestamp. unfold signContent.
    destruct (Js.falsy privateKey) eqn:Hf.
    { eexists. split; [reflexivity|]. apply list_elem_of_here. }
    destruct Hbad as [Hbad|Hbad]; [discriminate|].
    cbv zeta. fold (normalizedKey (default "" privateKey)).
    destruct (Js.length (normalizedKey (default "" privateKey)) =? 66); cbn [negb].
    + rewrite Hbad. cbn [negb]. eexists. split; [reflexivity|].
      do 2 apply list_elem_of_further. apply list_elem_of_here.
    + eexists. split; [reflexivity|]. apply list_elem_of_further, list_elem_of_here.
  - intros target score timestamp. unfold signRiskAssessment.
    destruct (Js.falsy privateKey) eqn:Hf.
    { eexists. split; [reflexivity|]. apply list_elem_of_here. }
    destruct Hbad as [Hbad|Hbad]; [discriminate|].
    cbv zeta. fold (normalizedKey (default "" privateKey)).
    destruct (Js.length (normalizedKey (default "" privateKey)) =? 66); cbn [negb].
    + rewrite Hbad. cbn [negb]. eexists. split; [reflexivity|].
      do 2 apply list_elem_of_further. apply list_elem_of_here.
    + eexists. split; [reflexivity|]. apply list_elem_of_further, list_elem_of_here.
  - intros Hf a b c timestamp.
    unfold signContent_unchecked, signProofOfCustody, signDataIntegrity, signAuditTrail,
      signBadge, signTimeline, signClassification.
    rewrite Hf. repeat split.
Qed.

Lemma signers_reject_bad_key_witness :
  exists e,
    signContent (viem := Sample.viem) "Example Domain" "https://example.com"
      (Some "0x1234") "2025-01-01T00:00:00.000Z" = Throw e
    /\ e ∈ [KEY_MISSING;
            KEY_BAD_LENGTH (Js.length (normalizedKey (default "" (Some "0x1234"))));
            KEY_BAD_CHARACTERS].
Proof.
  exact (proj1 (signers_reject_bad_key (viem := Sample.viem) (Some "0x1234")
                  (or_intror eq_refl))
           "Example Domain" "https://example.com" "2025-01-01T00:00:00.000Z").
Defined.

(** C8 as stated fails: a key of 64 hexadecimal characters without
    ["0x"] is not a 66-character ["0x"] string, and [signContent] signs
    with it. *)
Lemma signContent_accepts_bare_key :
  Js.hexPattern_test Sample.BARE_KEY = false
  /\ Js.length Sample.BARE_KEY = 64
  /\ signContent (viem := Sample.viem) "Example Domain" "https://example.com"
       (Some Sample.BARE_KEY) "2025-01-01T00:00:00.000Z"
     = Ret {| witness_id := "basis-edge-node-01";
              timestamp := "2025-01-01T00:00:00.000Z";
              method := "ecdsa-secp256k1";
              signer := "address(0x796978efb40f74b514c8dca7984eb62381d3f1339f0812d1a503c128e62c127b)";
              hash := "keccak256(https://example.com:2025-01-01T00:00:00.000Z:Example Domain)";
              signature := "sign(0x796978efb40f74b514c8dca7984eb62381d3f1339f0812d1a503c128e62c127b,keccak256(https://example.com:2025-01-01T00:00:00.000Z:Example Domain))" |}.
Proof. repeat split. Qed.

(** ** Signing failures and the replay store *)

(** C9, as the code has it: on the [/verify_url] route signing runs
    after the gate.  When the gate has passed the request on, the page
    was fetched and signing throws, the route answers HTTP 500 and the
    world is the one the gate left: the request's identifier, which had
    no live record, is now recorded as "used" for 86400 seconds. *)
Theorem signing_failure_keeps_gate_record `{viem : Viem} (ledger : Ledger)
    (performFetch : string -> FetchResult) (env : Env) (req : Request)
    (url text timestamp : string) (e : JsError) (ctx : BasisContext) (w w' : World) :
  x402 ledger env (authorization req) w = (Ret (Next ctx), w') ->
  args_url req = Some url ->
  fetch_status (performFetch url) = 200 ->
  content (performFetch url) = Some text ->
  text <> "" ->
  Js.falsy (BASIS_PRIVATE_KEY env) = false ->
  signContent text url (BASIS_PRIVATE_KEY env) timestamp = Throw e ->
  verify_url ledger performFetch env req timestamp w = (Ret internal_server_error, w')
  /\ http_status internal_server_error = 500
  /\ exists txHash,
       authorization req = Some txHash
       /\ KV.visible (kv w) (now w) txHash = None
       /\ kv w' !! txHash = Some {| value := "used"; expiration := now w + 86400 |}.
Proof.
  intros Hgate Hurl Hstatus Hcontent Htext Hkey Hsign.
  split; [|split; [reflexivity|]].
  - unfold verify_url, mbind, M_bind, bind. rewrite Hgate, Hurl.
    unfold mret, M_ret, ret, handler. cbv zeta.
    rewrite Hstatus, Hcontent, Hkey. cbn [Js.falsy default negb orb Z.eqb Pos.eqb].
    rewrite bool_decide_eq_false_2 by exact Htext. cbn [negb orb].
    change (id text) with text. rewrite Hsign. reflexivity.
  - apply x402_next in Hgate as (h & wallet & Hh & _ & _ & Hcore).
    apply gate_core_next in Hcore as (Hv & _ & _ & Hused).
    exists h. auto.
Qed.

Lemma signing_failure_keeps_gate_record_witness :
  verify_url (viem := Sample.viem) Sample.paid Sample.fetched Sample.env_short_key
    Sample.request "2025-01-01T00:00:00.000Z" Sample.world0
  = (Ret internal_server_error,
     snd (x402 (viem := Sample.viem) Sample.paid Sample.env_short_key (Some Sample.TX)
            Sample.world0)).
Proof.
  refine (proj1 (signing_failure_keeps_gate_record (viem := Sample.viem) Sample.paid
                   Sample.fetched Sample.env_short_key Sample.request
                   "https://example.com" "Example Domain" "2025-01-01T00:00:00.000Z"
                   (KEY_BAD_LENGTH 6)
                   Hono.unset
                   Sample.world0
                   (snd (x402 (viem := Sample.viem) Sample.paid Sample.env_short_key
                           (Some Sample.TX) Sample.world0))
                   _ eq_refl eq_refl eq_refl _ eq_refl _)).
  - vm_compute. reflexivity.
  - discriminate.
  - vm_compute. reflexivity.
Defined.

(** C9 as stated fails: a paid request whose signing fails on a
    malformed key ends with HTTP 500, and the store, empty before the
    request, holds a "used" record for its identifier afterwards; a
    request refused up front leaves the store empty. *)
Lemma signing_failure_after_used_recorded :
  signContent (viem := Sample.viem) "Example Domain" "https://example.com"
    (BASIS_PRIVATE_KEY Sample.env_short_key) "2025-01-01T00:00:00.000Z"
  = Throw (KEY_BAD_LENGTH 6)
  /\ fst (verify_url (viem := Sample.viem) Sample.paid Sample.fetched Sample.env_short_key
            Sample.request "2025-01-01T00:00:00.000Z" Sample.world0)
     = Ret internal_server_error
  /\ kv Sample.world0 !! Sample.TX = None
  /\ kv (snd (verify_url (viem := Sample.viem) Sample.paid Sample.fetched
                Sample.env_short_key Sample.request "2025-01-01T00:00:00.000Z"
                Sample.world0)) !! Sample.TX
     = Some {| value := "used"; expiration := 86400 |}
  /\ kv (snd (verify_url (viem := Sample.viem) Sample.paid Sample.fetched
                Sample.env_short_key
                {| authorization := None; args_url := Some "https://example.com" |}
                "2025-01-01T00:00:00.000Z" Sample.world0)) !! Sample.TX
     = None.
Proof. repeat split; vm_compute; reflexivity. Qed.

(** * Further properties of the gate *)

Section GateOutcomes.
Context `{viem : Viem}.
Variable ledger : Ledger.

(** The ways one execution of the gate core can end. *)
Lemma gate_core_outcome wallet h w r w' :
  gate_core ledger wallet h w = (r, w') ->
  r = Ret (Respond lock_acquisition_failed)
  \/ r = Ret (Respond payment_reuse_detected)
  \/ (r = Ret (Respond (verification_failed (verdict ledger h wallet) wallet))
      /\ valid (verdict ledger h wallet) = false)
  \/ (r = Ret (Respond usage_not_recorded) /\ valid (verdict ledger h wallet) = true)
  \/ (r = Ret (Next Hono.unset) /\ valid (verdict ledger h wallet) = true).
Proof.
  unfold gate_core. run_gate. simpl_gate.
  case_fault 0%nat w;
    (destruct (KV.visible (kv w) (now w) h) as [v|] eqn:Hv; [intros [= <- <-]; auto|]);
    try (intros [= <- <-]; auto; fail);
    simpl_gate;
    (case_fault 1%nat w; simpl_gate;
     destruct (valid (verdict ledger h wallet)) eqn:Hvalid; simpl_gate;
     destruct (isTestHash h); simpl_gate;
     case_fault 2%nat w;
     intros [= <- <-]; auto 10).
Qed.

(** The gate core on an identifier with no live record, when the store
    works and the payment is valid. *)
Lemma gate_core_admits wallet h w :
  KV.visible (kv w) (now w) h = None ->
  succeeds 0 w -> succeeds 1 w -> succeeds 2 w ->
  valid (verdict ledger h wallet) = true ->
  exists w',
    gate_core ledger wallet h w
    = (Ret (Next Hono.unset), w')
    /\ kv w' = <[h := {| value := "used"; expiration := now w + REPLAY_TTL |}]>
                 (<[h := {| value := "pending"; expiration := now w + PENDING_TTL |}]> (kv w))
    /\ now w' = now w
    /\ trace w' = trace w ++ [EvKvGet h; EvKvPut h "pending" PENDING_TTL; EvVerify h wallet;
                              EvRpc h; EvKvPut h "used" REPLAY_TTL].
Proof.
  intros Hv H0 H1 H2 Hvalid.
  unfold gate_core. run_gate. simpl_gate.
  case_fault 0%nat w; rewrite Hv; simpl_gate;
    (case_fault 1%nat w; simpl_gate; rewrite Hvalid; simpl_gate;
     (destruct (isTestHash h) eqn:Ht;
      [ rewrite (verdict_test_hash ledger h wallet Ht) in Hvalid; discriminate |]);
     simpl_gate; case_fault 2%nat w;
     eexists; (split; [reflexivity|]); cbn; rewrite <- ?app_assoc; auto).
Qed.

(** The gate core on an identifier with no live record, when the store
    works and the payment is not valid. *)
Lemma gate_core_releases wallet h w :
  KV.visible (kv w) (now w) h = None ->
  succeeds 0 w -> succeeds 1 w -> succeeds 2 w ->
  valid (verdict ledger h wallet) = false ->
  exists w',
    gate_core ledger wallet h w
    = (Ret (Respond (verification_failed (verdict ledger h wallet) wallet)), w')
    /\ kv w' = base.delete h (<[h := {| value := "pending";
                                        expiration := now w + PENDING_TTL |}]> (kv w))
    /\ now w' = now w
    /\ faults w' = tail (tail (tail (faults w)))
    /\ trace w' = trace w ++ [EvKvGet h; EvKvPut h "pending" PENDING_TTL; EvVerify h wallet]
                  ++ (if isTestHash h then [] else [EvRpc h]) ++ [EvKvDelete h].
Proof.
  intros Hv H0 H1 H2 Hvalid.
  unfold gate_core. run_gate. simpl_gate.
  case_fault 0%nat w; rewrite Hv; simpl_gate;
    (case_fault 1%nat w; simpl_gate; rewrite Hvalid; simpl_gate;
     destruct (isTestHash h) eqn:Ht;
     simpl_gate; case_fault 2%nat w;
     eexists; (split; [reflexivity|]); cbn; rewrite <- ?app_assoc; auto).
Qed.

(** The gate core on an identifier with a live record, when the read
    succeeds. *)
Lemma gate_core_replay wallet h v w :
  KV.visible (kv w) (now w) h = Some v ->
  succeeds 0 w ->
  gate_core ledger wallet h w
  = (Ret (Respond payment_reuse_detected), KV.after (EvKvGet h) w).
Proof.
  intros Hv H0. unfold gate_core. run_gate. simpl_gate.
  case_fault 0%nat w; rewrite Hv; reflexivity.
Qed.

End GateOutcomes.

(** X1: the gate passes a request on only when its header is accepted,
    the worker is configured, the identifier had no live record and the
    verifier found the payment valid; the identifier is then recorded as
    "used" for 86400 seconds and no other record has changed.  The
    request context stores no variable then: the payer and the
    identifier are assigned to properties of [c.var], so a handler
    downstream reads neither. *)
Theorem x402_admits_only_verified `{viem : Viem} (ledger : Ledger) (env : Env)
    (authHeader : option string) (w w' : World) (ctx : BasisContext) :
  x402 ledger env authHeader w = (Ret (Next ctx), w') ->
  exists txHash wallet,
    authHeader = Some txHash
    /\ header_accepted (Some txHash) = true
    /\ configured env wallet
    /\ KV.visible (kv w) (now w) txHash = None
    /\ isTestHash txHash = false
    /\ valid (verdict ledger txHash wallet) = true
    /\ wallet_address (Hono.var ctx) = None
    /\ tx_hash (Hono.var ctx) = None
    /\ kv w' !! txHash = Some {| value := "used"; expiration := now w + 86400 |}
    /\ forall key, key <> txHash -> kv w' !! key = kv w !! key.
Proof.
  intros Hrun.
  pose proof (x402_frame ledger env authHeader w _ _ Hrun) as (_ & _ & Hother & _).
  apply x402_next in Hrun as (h & wallet & -> & Hacc & Hconf & Hcore).
  apply gate_core_next in Hcore as (Hv & Hvalid & Hctx & Hused).
  exists h, wallet. repeat (split; [assumption || reflexivity|]).
  split.
  { destruct (isTestHash h) eqn:Ht; [|reflexivity].
    rewrite (verdict_test_hash ledger h wallet Ht) in Hvalid. discriminate. }
  split; [assumption|].
  subst ctx. split; [reflexivity|]. split; [reflexivity|].
  split; [assumption|].
  intros key Hne. apply Hother. congruence.
Qed.

Lemma x402_admits_only_verified_witness :
  exists txHash wallet,
    Some Sample.TX = Some txHash
    /\ header_accepted (Some txHash) = true
    /\ configured Sample.env wallet
    /\ KV.visible (kv Sample.world0) (now Sample.world0) txHash = None
    /\ isTestHash txHash = false
    /\ valid (verdict (viem := Sample.viem) Sample.paid txHash wallet) = true
    /\ wallet_address
         (Hono.var (Hono.unset)) = None
    /\ tx_hash (Hono.var (Hono.unset)) = None
    /\ kv (snd (x402 (viem := Sample.viem) Sample.paid Sample.env (Some Sample.TX)
                  Sample.world0)) !! txHash
       = Some {| value := "used"; expiration := now Sample.world0 + 86400 |}
    /\ forall key, key <> txHash ->
         kv (snd (x402 (viem := Sample.viem) Sample.paid Sample.env (Some Sample.TX)
                    Sample.world0)) !! key
         = kv Sample.world0 !! key.
Proof.
  apply (x402_admits_only_verified (viem := Sample.viem) Sample.paid Sample.env
           (Some Sample.TX) Sample.world0).
  vm_compute. reflexivity.
Defined.

(** X2: no exception escapes the gate, whatever the request, the
    configuration, the ledger answer and the store faults: it returns a
    response of its own, with status 402 or 500, or passes the request
    on; and it leaves the clock alone. *)
Theorem x402_always_answers `{viem : Viem} (ledger : Ledger) (env : Env)
    (authHeader : option string) (w : World) :
  exists g w',
    x402 ledger env authHeader w = (Ret g, w')
    /\ refusal_status g
    /\ now w' = now w.
Proof.
  destruct (x402 ledger env authHeader w) as [r w'] eqn:Hrun.
  pose proof (x402_frame ledger env authHeader w r w' Hrun) as ((g & ->) & Hnow & _).
  exists g, w'. split; [reflexivity|]. split; [|exact Hnow].
  destruct (header_accepted authHeader) eqn:Hacc.
  2:{ rewrite x402_refused in Hrun by exact Hacc. injection Hrun as <- _. cbn. auto. }
  destruct authHeader as [h|]; [|discriminate].
  pose proof (header_accepted_inv h Hacc) as (He & Hpre & Hlen).
  revert Hrun. unfold x402. cbv zeta. change (default "" (Some h)) with h.
  cbn [Js.falsy]. rewrite He, Hpre, Hlen. cbn [negb orb]. unfold mret, M_ret, ret.
  destruct (Js.falsy (BASIS_WALLET_ADDRESS env)); [intros [= <- _]; cbn; auto|].
  destruct (BASIS_KV env); cbn [negb]; [|intros [= <- _]; cbn; auto].
  intros Hcore. apply gate_core_outcome in Hcore.
  destruct Hcore as [[= ->]|[[= ->]|[([= ->] & _)|[([= ->] & _)|([= ->] & _)]]]];
    cbn; auto.
Qed.

(** X3: the gate works on one key only.  Every store operation and
    ledger query of an execution is about the identifier presented, and
    the records under all other keys are as they were. *)
Theorem x402_touches_own_key_only `{viem : Viem} (ledger : Ledger) (env : Env)
    (authHeader : option string) (w : World) :
  (forall key, authHeader <> Some key ->
     kv (snd (x402 ledger env authHeader w)) !! key = kv w !! key)
  /\ exists evs,
       trace (snd (x402 ledger env authHeader w)) = trace w ++ evs
       /\ forall e, e ∈ evs -> authHeader = Some (event_key e).
Proof.
  destruct (x402 ledger env authHeader w) as [r w'] eqn:Hrun. cbn [snd].
  split.
  - apply (x402_frame ledger env authHeader w r w' Hrun).
  - apply x402_effects in Hrun as (evs & Htrace & Hshape).
    exists evs. split; [exact Htrace|]. intros e He.
    destruct Hshape as [->|(h & -> & Hshape)]; [inversion He|].
    unfold gate_effects in Hshape. destruct (isTestHash h); cbn in Hshape;
      repeat (apply elem_of_cons in Hshape as [->|Hshape]);
      try (inversion Hshape; fail);
      repeat (apply elem_of_cons in He as [->|He]; [reflexivity|]);
      inversion He.
Qed.

(** X4: when verification fails and the store works, the gate answers
    402 "Payment Verification Failed" with the verifier's reason and
    deletes the lock it took: the identifier has no record afterwards.
    The same identifier can therefore be presented again, and is passed
    on once the ledger shows a valid payment. *)
Theorem x402_releases_lock_on_failure `{viem : Viem} (ledger : Ledger) (env : Env)
    (wallet txHash : string) (w : World) :
  header_accepted (Some txHash) = true ->
  configured env wallet ->
  KV.visible (kv w) (now w) txHash = None ->
  succeeds 0 w -> succeeds 1 w -> succeeds 2 w ->
  valid (verdict ledger txHash wallet) = false ->
  exists w',
    x402 ledger env (Some txHash) w
    = (Ret (Respond (json (ErrorBody "Payment Verification Failed"
                             (Js.or_default (error (verdict ledger txHash wallet))
                                "Transaction does not meet payment requirements")
                             (Some (payment_context_for wallet))) 402)), w')
    /\ kv w' !! txHash = None
    /\ forall ledger',
         valid (verdict ledger' txHash wallet) = true ->
         succeeds 0 w' -> succeeds 1 w' -> succeeds 2 w' ->
         exists ctx w'',
           x402 ledger' env (Some txHash) w' = (Ret (Next ctx), w'')
           /\ kv w'' !! txHash = Some {| value := "used"; expiration := now w + 86400 |}.
Proof.
  intros Hacc Hconf Hv H0 H1 H2 Hvalid.
  destruct (gate_core_releases ledger wallet txHash w Hv H0 H1 H2 Hvalid)
    as (w' & Hrun & Hkv & Hnow & _ & _).
  exists w'. split; [|split].
  - rewrite (x402_accepted ledger env wallet) by assumption. exact Hrun.
  - rewrite Hkv. apply lookup_delete_eq.
  - intros ledger' Hvalid' H0' H1' H2'.
    assert (Hv' : KV.visible (kv w') (now w') txHash = None).
    { unfold KV.visible. rewrite Hkv, lookup_delete_eq. reflexivity. }
    destruct (gate_core_admits ledger' wallet txHash w' Hv' H0' H1' H2' Hvalid')
      as (w'' & Hrun' & Hkv' & _ & _).
    do 2 eexists. split.
    + rewrite (x402_accepted ledger' env wallet) by assumption. exact Hrun'.
    + rewrite Hkv', lookup_insert_eq, Hnow. reflexivity.
Qed.

Lemma x402_releases_lock_on_failure_witness :
  exists w',
    x402 (viem := Sample.viem) Sample2.unmined Sample.env (Some Sample.TX) Sample.world0
    = (Ret (Respond (json (ErrorBody "Payment Verification Failed"
                             (Js.or_default
                                (error (verdict (viem := Sample.viem) Sample2.unmined
                                          Sample.TX Sample.WALLET))
                                "Transaction does not meet payment requirements")
                             (Some (payment_context_for Sample.WALLET))) 402)), w')
    /\ kv w' !! Sample.TX = None
    /\ forall ledger',
         valid (verdict (viem := Sample.viem) ledger' Sample.TX Sample.WALLET) = true ->
         succeeds 0 w' -> succeeds 1 w' -> succeeds 2 w' ->
         exists ctx w'',
           x402 (viem := Sample.viem) ledger' Sample.env (Some Sample.TX) w'
           = (Ret (Next ctx), w'')
           /\ kv w'' !! Sample.TX
              = Some {| value := "used"; expiration := now Sample.world0 + 86400 |}.
Proof.
  apply (x402_releases_lock_on_failure (viem := Sample.viem) Sample2.unmined Sample.env
           Sample.WALLET Sample.TX Sample.world0).
  - reflexivity.
  - repeat split. discriminate.
  - reflexivity.
  - discriminate.
  - discriminate.
  - discriminate.
  - vm_compute. reflexivity.
Defined.

(** X5: when verification fails and the delete of the lock throws, the
    failure is swallowed: the answer is the same 402 as when the delete
    succeeds.  The "pending" record stays; a request with the same
    identifier is refused as a replay until 300 seconds after the
    failed request, and from then on the record is no longer visible. *)
Theorem x402_failed_release_expires `{viem : Viem} (ledger : Ledger) (env : Env)
    (wallet txHash : string) (w : World) :
  header_accepted (Some txHash) = true ->
  configured env wallet ->
  KV.visible (kv w) (now w) txHash = None ->
  succeeds 0 w -> succeeds 1 w -> fails 2 w ->
  valid (verdict ledger txHash wallet) = false ->
  exists w',
    x402 ledger env (Some txHash) w
    = (Ret (Respond (verification_failed (verdict ledger txHash wallet) wallet)), w')
    /\ kv w' !! txHash = Some {| value := "pending"; expiration := now w + 300 |}
    /\ (forall ledger' d,
          0 <= d < 300 ->
          succeeds 0 w' ->
          fst (x402 ledger' env (Some txHash) (advance d w'))
          = Ret (Respond payment_reuse_detected))
    /\ (forall d, 300 <= d ->
          KV.visible (kv (advance d w')) (now (advance d w')) txHash = None).
Proof.
  intros Hacc Hconf Hv H0 H1 H2 Hvalid.
  assert (Hrun : exists w',
    gate_core ledger wallet txHash w
    = (Ret (Respond (verification_failed (verdict ledger txHash wallet) wallet)), w')
    /\ kv w' = <[txHash := {| value := "pending"; expiration := now w + PENDING_TTL |}]> (kv w)
    /\ now w' = now w).
  { unfold gate_core. run_gate. simpl_gate.
    case_fault 0%nat w; rewrite Hv; simpl_gate;
      (case_fault 1%nat w; simpl_gate; rewrite Hvalid; simpl_gate;
       destruct (isTestHash txHash); simpl_gate; case_fault 2%nat w;
       eexists; (split; [reflexivity|]); cbn; auto). }
  destruct Hrun as (w' & Hrun & Hkv & Hnow).
  assert (Hrec : kv w' !! txHash
                 = Some {| value := "pending"; expiration := now w + 300 |})
    by (rewrite Hkv; apply lookup_insert_eq).
  exists w'. split; [|split; [exact Hrec|split]].
  - rewrite (x402_accepted ledger env wallet) by assumption. exact Hrun.
  - intros ledger' d Hd H0'.
    rewrite (x402_accepted ledger' env wallet) by assumption.
    rewrite (gate_core_replay ledger' wallet txHash "pending"); [reflexivity| |exact H0'].
    unfold KV.visible. cbn [advance kv now]. rewrite Hrec. cbn [expiration value].
    destruct (Z.ltb_spec (now w' + d) (now w + 300)); [reflexivity|lia].
  - intros d Hd. unfold KV.visible. cbn [advance kv now]. rewrite Hrec.
    cbn [expiration value].
    destruct (Z.ltb_spec (now w' + d) (now w + 300)); [lia|reflexivity].
Qed.

Lemma x402_failed_release_expires_witness :
  exists w',
    x402 (viem := Sample.viem) Sample2.unmined Sample.env (Some Sample.TX)
      (set_faults [false; false; true] Sample.world0)
    = (Ret (Respond (verification_failed
                       (verdict (viem := Sample.viem) Sample2.unmined Sample.TX Sample.WALLET)
                       Sample.WALLET)), w')
    /\ kv w' !! Sample.TX
       = Some {| value := "pending";
                 expiration := now (set_faults [false; false; true] Sample.world0) + 300 |}
    /\ (forall ledger' d,
          0 <= d < 300 ->
          succeeds 0 w' ->
          fst (x402 (viem := Sample.viem) ledger' Sample.env (Some Sample.TX) (advance d w'))
          = Ret (Respond payment_reuse_detected))
    /\ (forall d, 300 <= d ->
          KV.visible (kv (advance d w')) (now (advance d w')) Sample.TX = None).
Proof.
  apply (x402_failed_release_expires (viem := Sample.viem) Sample2.unmined Sample.env
           Sample.WALLET Sample.TX (set_faults [false; false; true] Sample.world0)).
  - reflexivity.
  - repeat split. discriminate.
  - reflexivity.
  - discriminate.
  - discriminate.
  - reflexivity.
  - vm_compute. reflexivity.
Defined.

(** X6: when the store read throws, or the read finds nothing and the
    write of the lock throws, the gate answers 500 "Failed to process
    payment verification": the verifier is never called, the ledger is
    never queried, and the store is as it was. *)
Theorem x402_lock_failure_skips_verifier `{viem : Viem} (ledger : Ledger) (env : Env)
    (wallet txHash : string) (w : World) :
  header_accepted (Some txHash) = true ->
  configured env wallet ->
  fails 0 w \/ (KV.visible (kv w) (now w) txHash = None /\ fails 1 w) ->
  exists w' evs,
    x402 ledger env (Some txHash) w
    = (Ret (Respond (json (ErrorBody "Internal Server Error"
                             "Failed to process payment verification" None) 500)), w')
    /\ kv w' = kv w
    /\ trace w' = trace w ++ evs
    /\ forall key rcpt, (EvVerify key rcpt ∉ evs) /\ (EvRpc key ∉ evs).
Proof.
  intros Hacc Hconf Hfail.
  rewrite (x402_accepted ledger env wallet) by assumption.
  unfold gate_core. run_gate. simpl_gate. unfold fails in Hfail.
  destruct (faults w !! 0%nat) as [[|]|] eqn:Hf0.
  - do 2 eexists. split; [reflexivity|]. cbn. split; [reflexivity|].
    split; [reflexivity|]. intros key rcpt.
    split; intros Hin; apply list_elem_of_singleton in Hin; discriminate.
  - destruct Hfail as [Hfail|(Hv & Hf1)]; [discriminate|].
    rewrite Hv. simpl_gate. rewrite Hf1.
    do 2 eexists. split; [reflexivity|]. cbn. rewrite <- app_assoc. cbn.
    split; [reflexivity|]. split; [reflexivity|]. intros key rcpt.
    split; intros Hin;
      repeat (apply elem_of_cons in Hin as [Hin|Hin]; [discriminate|]); inversion Hin.
  - destruct Hfail as [Hfail|(Hv & Hf1)]; [discriminate|].
    rewrite Hv. simpl_gate. rewrite Hf1.
    do 2 eexists. split; [reflexivity|]. cbn. rewrite <- app_assoc. cbn.
    split; [reflexivity|]. split; [reflexivity|]. intros key rcpt.
    split; intros Hin;
      repeat (apply elem_of_cons in Hin as [Hin|Hin]; [discriminate|]); inversion Hin.
Qed.

Lemma x402_lock_failure_skips_verifier_witness :
  exists w' evs,
    x402 (viem := Sample.viem) Sample.paid Sample.env (Some Sample.TX)
      (set_faults [false; true] Sample.world0)
    = (Ret (Respond (json (ErrorBody "Internal Server Error"
                             "Failed to process payment verification" None) 500)), w')
    /\ kv w' = kv (set_faults [false; true] Sample.world0)
    /\ trace w' = trace (set_faults [false; true] Sample.world0) ++ evs
    /\ forall key rcpt, (EvVerify key rcpt ∉ evs) /\ (EvRpc key ∉ evs).
Proof.
  apply (x402_lock_failure_skips_verifier (viem := Sample.viem) Sample.paid Sample.env
           Sample.WALLET Sample.TX (set_faults [false; true] Sample.world0)).
  - reflexivity.
  - repeat split. discriminate.
  - right. split; reflexivity.
Defined.



(** X8: the replay protection lasts as long as the record.  Once 86400
    seconds have gone by since a request with a given identifier in its
    header was passed on, the "used" record is no longer visible, and a
    request with the same identifier, with the same payment on the
    ledger, is passed on again; the identifier is recorded as "used"
    anew, for 86400 seconds from the second request. *)
Theorem x402_passes_again_after_expiry `{viem : Viem} (ledger : Ledger) (env : Env)
    (txHash : string) (ctx : BasisContext) (w w' : World) (d : Z) :
  x402 ledger env (Some txHash) w = (Ret (Next ctx), w') ->
  86400 <= d ->
  succeeds 0 w' -> succeeds 1 w' -> succeeds 2 w' ->
  KV.visible (kv (advance d w')) (now (advance d w')) txHash = None
  /\ exists ctx' w'',
       x402 ledger env (Some txHash) (advance d w') = (Ret (Next ctx'), w'')
       /\ kv w'' !! txHash
          = Some {| value := "used"; expiration := now w + d + 86400 |}.
Proof.
  intros Hrun Hd H0 H1 H2.
  pose proof (x402_frame ledger env (Some txHash) w _ _ Hrun) as (_ & Hnow & _).
  apply x402_next in Hrun as (h & wallet & [= <-] & Hacc & Hconf & Hcore).
  apply gate_core_next in Hcore as (_ & Hvalid & _ & Hused).
  assert (Hv : KV.visible (kv (advance d w')) (now (advance d w')) txHash = None).
  { unfold KV.visible. cbn [advance kv now]. rewrite Hused. cbn [expiration].
    destruct (Z.ltb_spec (now w' + d) (now w + REPLAY_TTL)); [|reflexivity].
    unfold REPLAY_TTL in *. lia. }
  split; [exact Hv|].
  destruct (gate_core_admits ledger wallet txHash (advance d w') Hv H0 H1 H2 Hvalid)
    as (w'' & Hrun' & Hkv & _).
  exists Hono.unset, w''. split.
  - rewrite (x402_accepted ledger env wallet) by assumption. exact Hrun'.
  - rewrite Hkv, lookup_insert_eq. cbn [advance now].
    rewrite Hnow. reflexivity.
Qed.

Lemma x402_passes_again_after_expiry_witness :
  KV.visible
    (kv (advance 86400 (snd (x402 (viem := Sample.viem) Sample.paid Sample.env
                               (Some Sample.TX) Sample.world0))))
    (now (advance 86400 (snd (x402 (viem := Sample.viem) Sample.paid Sample.env
                                (Some Sample.TX) Sample.world0))))
    Sample.TX = None
  /\ exists ctx' w'',
       x402 (viem := Sample.viem) Sample.paid Sample.env (Some Sample.TX)
         (advance 86400 (snd (x402 (viem := Sample.viem) Sample.paid Sample.env
                                (Some Sample.TX) Sample.world0)))
       = (Ret (Next ctx'), w'')
       /\ kv w'' !! Sample.TX
          = Some {| value := "used"; expiration := now Sample.world0 + 86400 + 86400 |}.
Proof.
  apply (x402_passes_again_after_expiry (viem := Sample.viem) Sample.paid Sample.env
           Sample.TX
           Hono.unset
           Sample.world0
           (snd (x402 (viem := Sample.viem) Sample.paid Sample.env (Some Sample.TX)
                   Sample.world0))
           86400).
  - vm_compute. reflexivity.
  - lia.
  - discriminate.
  - discriminate.
  - discriminate.
Defined.

(** * Further properties of the chain verifier *)

(** A transfer the loop returns was decoded from a log of the receipt. *)
Lemma find_valid_transfer_log `{viem : Viem} (rcpt : string) (ls : list Log) (t : Transfer) :
  find_valid_transfer rcpt ls = Some t ->
  exists log,
    log ∈ ls
    /\ decodeUSDCLog log = Some t
    /\ Js.toLowerCase (to t) = Js.toLowerCase rcpt
    /\ MIN_PAYMENT_AMOUNT <= transfer_value t.
Proof.
  induction ls as [|log rest IH]; [discriminate|].
  cbn [find_valid_transfer].
  destruct (decodeUSDCLog log) as [decoded|] eqn:Hdec.
  - case_bool_decide as Hto.
    + destruct (Z.leb_spec MIN_PAYMENT_AMOUNT (transfer_value decoded)) as [Hge|Hlt].
      * intros [= <-]. exists log. repeat split; auto. left.
      * intros H. destruct (IH H) as (l & Hin & Hrest). exists l. split; [right; exact Hin|exact Hrest].
    + intros H. destruct (IH H) as (l & Hin & Hrest). exists l. split; [right; exact Hin|exact Hrest].
  - intros H. destruct (IH H) as (l & Hin & Hrest). exists l. split; [right; exact Hin|exact Hrest].
Qed.

(** X9: the verifier reports a payment valid only on evidence.  When
    the verdict is valid, the hash is not a placeholder, the ledger
    returned a receipt with status "success", and the receipt holds a
    log emitted by the USDC contract (address compared in lower case)
    that decodes as a Transfer to the recipient (compared in lower case)
    of at least 1000 units; the payer reported is that transfer's
    source. *)
Theorem verdict_valid_has_evidence `{viem : Viem} (ledger : Ledger)
    (txHash rcpt : string) :
  valid (verdict ledger txHash rcpt) = true ->
  isTestHash txHash = false
  /\ exists receipt log decoded,
       ledger txHash = RpcReceipt receipt
       /\ status receipt = "success"
       /\ log ∈ logs receipt
       /\ Js.toLowerCase (address log) = Js.toLowerCase USDC_BASE_ADDRESS
       /\ decodeEventLog (data log) (topics log) = Some decoded
       /\ eventName decoded = "Transfer"
       /\ Js.toLowerCase (args_to decoded) = Js.toLowerCase rcpt
       /\ 1000 <= args_value decoded
       /\ walletAddress (verdict ledger txHash rcpt) = Some (args_from decoded).
Proof.
  unfold verdict.
  destruct (isTestHash txHash); [discriminate|].
  destruct (ledger txHash) as [receipt|e] eqn:Hledger.
  2:{ unfold classify_error. repeat case_match; discriminate. }
  unfold check_receipt.
  case_bool_decide as Hstatus; cbn [negb]; [|discriminate].
  destruct (logs receipt) as [|l0 ls] eqn:Hlogs; [discriminate|].
  destruct (find_valid_transfer rcpt (l0 :: ls)) as [t|] eqn:Hfind; [|discriminate].
  intros _. split; [reflexivity|]. pose proof Hfind as Hfind'.
  apply find_valid_transfer_log in Hfind as (log & Hin & Hdec & Hto & Hge).
  unfold decodeUSDCLog in Hdec.
  case_bool_decide as Haddr; cbn [negb] in Hdec; [|discriminate].
  destruct (decodeEventLog (data log) (topics log)) as [decoded|] eqn:Hd; [|discriminate].
  case_bool_decide as Hname; cbn [negb] in Hdec; [|discriminate].
  injection Hdec as <-. cbn [to from transfer_value] in *.
  exists receipt, log, decoded.
  split; [reflexivity|]. split; [exact Hstatus|]. split; [rewrite Hlogs; exact Hin|].
  split; [exact Haddr|]. split; [exact Hd|]. split; [exact Hname|].
  split; [exact Hto|]. split; [exact Hge|]. rewrite ?Hlogs, ?Hfind'. reflexivity.
Qed.

Lemma verdict_valid_has_evidence_witness :
  isTestHash Sample.TX = false
  /\ exists receipt log decoded,
       Sample.paid Sample.TX = RpcReceipt receipt
       /\ status receipt = "success"
       /\ log ∈ logs receipt
       /\ Js.toLowerCase (address log) = Js.toLowerCase USDC_BASE_ADDRESS
       /\ decodeEventLog (Viem := Sample.viem) (data log) (topics log) = Some decoded
       /\ eventName decoded = "Transfer"
       /\ Js.toLowerCase (args_to decoded) = Js.toLowerCase Sample.wallet_lower
       /\ 1000 <= args_value decoded
       /\ walletAddress (verdict (viem := Sample.viem) Sample.paid Sample.TX Sample.wallet_lower)
          = Some (args_from decoded).
Proof.
  apply (verdict_valid_has_evidence (viem := Sample.viem) Sample.paid Sample.TX
           Sample.wallet_lower).
  vm_compute. reflexivity.
Defined.



(** X11: a placeholder identifier costs no ledger query.  For an
    accepted header that starts with [0x0000000000000000],
    [0xffffffffffffffff] or [0x1234567890abcdef],
    the gate takes the lock, is told by the verifier that the hash is a
    placeholder, releases the lock and answers 402; the ledger is not
    asked. *)
Theorem x402_placeholder_hash `{viem : Viem} (ledger : Ledger) (env : Env)
    (wallet prefix rest : string) (w : World) :
  prefix ∈ ["0x0000000000000000"; "0xffffffffffffffff"; "0x1234567890abcdef"] ->
  header_accepted (Some (prefix +:+ rest)) = true ->
  configured env wallet ->
  KV.visible (kv w) (now w) (prefix +:+ rest) = None ->
  succeeds 0 w -> succeeds 1 w -> succeeds 2 w ->
  exists w',
    x402 ledger env (Some (prefix +:+ rest)) w
    = (Ret (Respond (verification_failed
                       (invalid "Invalid transaction hash: This appears to be a test/placeholder hash. Please use a real transaction hash from Base Mainnet.")
                       wallet)), w')
    /\ kv w' !! (prefix +:+ rest) = None
    /\ trace w' = trace w ++ [EvKvGet (prefix +:+ rest);
                              EvKvPut (prefix +:+ rest) "pending" 300;
                              EvVerify (prefix +:+ rest) wallet;
                              EvKvDelete (prefix +:+ rest)].
Proof.
  intros Hprefix Hacc Hconf Hv H0 H1 H2.
  assert (Ht : isTestHash (prefix +:+ rest) = true).
  { repeat (apply elem_of_cons in Hprefix as [->|Hprefix]; [reflexivity|]).
    inversion Hprefix. }
  pose proof (verdict_test_hash ledger (prefix +:+ rest) wallet Ht) as Hvalid.
  destruct (gate_core_releases ledger wallet (prefix +:+ rest) w Hv H0 H1 H2 Hvalid)
    as (w' & Hrun & Hkv & _ & _ & Htrace).
  exists w'. split; [|split].
  - rewrite (x402_accepted ledger env wallet) by assumption. rewrite Hrun.
    unfold verdict. rewrite Ht. reflexivity.
  - rewrite Hkv. apply lookup_delete_eq.
  - rewrite Htrace, Ht. reflexivity.
Qed.

Lemma x402_placeholder_hash_witness :
  exists w',
    x402 (viem := Sample.viem) Sample.paid Sample.env
      (Some ("0x0000000000000000" +:+ "a1b4c7d8e9f00112233445566778899aabbccddeeff00a1b"))
      Sample.world0
    = (Ret (Respond (verification_failed
                       (invalid "Invalid transaction hash: This appears to be a test/placeholder hash. Please use a real transaction hash from Base Mainnet.")
                       Sample.WALLET)), w')
    /\ kv w' !! ("0x0000000000000000" +:+ "a1b4c7d8e9f00112233445566778899aabbccddeeff00a1b")
       = None
    /\ trace w'
       = trace Sample.world0
         ++ [EvKvGet ("0x0000000000000000" +:+ "a1b4c7d8e9f00112233445566778899aabbccddeeff00a1b");
             EvKvPut ("0x0000000000000000" +:+ "a1b4c7d8e9f00112233445566778899aabbccddeeff00a1b")
               "pending" 300;
             EvVerify ("0x0000000000000000" +:+ "a1b4c7d8e9f00112233445566778899aabbccddeeff00a1b")
               Sample.WALLET;
             EvKvDelete ("0x0000000000000000" +:+ "a1b4c7d8e9f00112233445566778899aabbccddeeff00a1b")].
Proof.
  apply (x402_placeholder_hash (viem := Sample.viem) Sample.paid Sample.env Sample.WALLET
           "0x0000000000000000" "a1b4c7d8e9f00112233445566778899aabbccddeeff00a1b"
           Sample.world0).
  - apply list_elem_of_here.
  - reflexivity.
  - repeat split. discriminate.
  - reflexivity.
  - discriminate.
  - discriminate.
  - discriminate.
Defined.

(** X12: the mock gate and the production gate check the header alike.
    A header one of them refuses for its format is refused by the other
    with the same 402 response, and every header the production gate
    passes on is passed on by the mock gate. *)
Theorem gates_share_format_check `{viem : Viem} (ledger : Ledger) (env : Env)
    (authHeader : option string) (w : World) :
  (header_accepted authHeader = false ->
   Mock.x402 env authHeader w = (Ret (Respond (payment_required env)), w)
   /\ x402 ledger env authHeader w = (Ret (Respond (payment_required env)), w))
  /\ (Mock.x402 env authHeader w = (Ret (Respond (payment_required env)), w)
      \/ Mock.x402 env authHeader w
         = (Ret (Next {| wallet_address := None; tx_hash := None |}), w))
  /\ (forall ctx w',
        x402 ledger env authHeader w = (Ret (Next ctx), w') ->
        Mock.x402 env authHeader w
        = (Ret (Next {| wallet_address := None; tx_hash := None |}), w)).
Proof.
  split; [|split].
  - intros Hacc. split; [|apply x402_refused, Hacc].
    unfold Mock.x402. rewrite Hacc. reflexivity.
  - unfold Mock.x402. destruct (header_accepted authHeader); auto.
  - intros ctx w' Hrun.
    apply x402_next in Hrun as (h & wallet & -> & Hacc & _).
    unfold Mock.x402. rewrite Hacc. reflexivity.
Qed.

(** * Further properties of the witness signers *)

Lemma startsWith_0x_app (s : string) : Js.startsWith "0x" ("0x" +:+ s) = true.
Proof. reflexivity. Qed.

(** X13: [signContent] and [signRiskAssessment] do not care whether the
    key carries its ["0x"]: a non-empty key without the prefix gives the
    very result the same key with the prefix gives (the same
    certificate, or the same error). *)
Theorem signing_ignores_missing_prefix `{viem : Viem} (key : string) :
  key <> "" ->
  Js.startsWith "0x" key = false ->
  (forall content url timestamp,
     signContent content url (Some key) timestamp
     = signContent content url (Some ("0x" +:+ key)) timestamp)
  /\ (forall target score timestamp,
        signRiskAssessment target score timestamp (Some key)
        = signRiskAssessment target score timestamp (Some ("0x" +:+ key))).
Proof.
  intros Hne Hpre. split; intros; unfold signContent, signRiskAssessment;
    cbn [Js.falsy default]; change (id ?x) with x;
    rewrite (bool_decide_eq_false_2 _ Hne);
    rewrite (bool_decide_eq_false_2 ("0x" +:+ key = "")) by discriminate;
    cbv zeta; rewrite Hpre, startsWith_0x_app; reflexivity.
Qed.

Lemma signing_ignores_missing_prefix_witness :
  (forall content url timestamp,
     signContent (viem := Sample.viem) content url (Some Sample.BARE_KEY) timestamp
     = signContent (viem := Sample.viem) content url (Some ("0x" +:+ Sample.BARE_KEY)) timestamp)
  /\ (forall target score timestamp,
        signRiskAssessment (viem := Sample.viem) target score timestamp (Some Sample.BARE_KEY)
        = signRiskAssessment (viem := Sample.viem) target score timestamp
            (Some ("0x" +:+ Sample.BARE_KEY))).
Proof.
  apply (signing_ignores_missing_prefix (viem := Sample.viem) Sample.BARE_KEY).
  - discriminate.
  - reflexivity.
Defined.

(** X14: the two copies of [signContent] differ only on keys that are
    not well formed.  On a key that is ["0x"] followed by 64 hexadecimal
    characters the checking copy and the copy that does not check give
    the same result. *)
Theorem signContent_copies_agree `{viem : Viem} (content url key timestamp : string) :
  Js.hexPattern_test key = true ->
  signContent content url (Some key) timestamp
  = signContent_unchecked content url (Some key) timestamp.
Proof.
  intros Hkey. pose proof (hexPattern_header_accepted key Hkey) as Hacc.
  apply header_accepted_inv in Hacc as (Hne & Hpre & Hlen).
  unfold signContent, signContent_unchecked. cbn [Js.falsy default]. change (id key) with key.
  rewrite Hne. cbv zeta. rewrite Hpre, Hlen, Hkey. reflexivity.
Qed.

Lemma signContent_copies_agree_witness :
  signContent (viem := Sample.viem) "Example Domain" "https://example.com"
    (Some ("0x" +:+ Sample.BARE_KEY)) "2025-01-01T00:00:00.000Z"
  = signContent_unchecked (viem := Sample.viem) "Example Domain" "https://example.com"
      (Some ("0x" +:+ Sample.BARE_KEY)) "2025-01-01T00:00:00.000Z".
Proof.
  apply (signContent_copies_agree (viem := Sample.viem)).
  reflexivity.
Defined.

(** * Further properties of the [/verify_url] route *)

(** X15: on [/verify_url] a payment is spent as soon as the gate passes
    the request on, whatever happens next.  The route leaves the world
    exactly as the gate left it, with the identifier recorded as "used",
    whether it then answers 400 (a body the schema refuses), the status
    of a failed fetch, 500 (no key, or signing failed) or 200. *)
Theorem verify_url_spends_on_admission `{viem : Viem} (ledger : Ledger)
    (performFetch : string -> FetchResult) (env : Env) (req : Request)
    (timestamp : string) (ctx : BasisContext) (w w' : World) :
  x402 ledger env (authorization req) w = (Ret (Next ctx), w') ->
  exists response txHash,
    verify_url ledger performFetch env req timestamp w = (Ret response, w')
    /\ authorization req = Some txHash
    /\ kv w' !! txHash = Some {| value := "used"; expiration := now w + 86400 |}
    /\ (args_url req = None -> response = json ValidationErrorBody 400)
    /\ (forall url,
          args_url req = Some url ->
          fetch_status (performFetch url) <> 200 ->
          response = json (FetchErrorBody (fetch_error (performFetch url)))
                       (fetch_status (performFetch url)))
    /\ (forall url,
          args_url req = Some url ->
          fetch_status (performFetch url) = 200 ->
          Js.falsy (content (performFetch url)) = false ->
          Js.falsy (BASIS_PRIVATE_KEY env) = true ->
          response = json (ErrorBody "Configuration Error"
                             "BASIS_PRIVATE_KEY not configured. Cannot create witness proof."
                             None) 500).
Proof.
  intros Hgate.
  assert (Hroute : exists response,
             verify_url ledger performFetch env req timestamp w = (Ret response, w')
             /\ response = match args_url req with
                           | None => invalid_body
                           | Some url => handler performFetch env url timestamp
                           end).
  { unfold verify_url, mbind, M_bind, bind. rewrite Hgate.
    destruct (args_url req); eexists; split; reflexivity. }
  destruct Hroute as (response & Hroute & Hresp).
  apply x402_next in Hgate as (h & wallet & Hh & _ & _ & Hcore).
  apply gate_core_next in Hcore as (_ & _ & _ & Hused).
  exists response, h. split; [exact Hroute|]. split; [exact Hh|]. split; [exact Hused|].
  split; [|split].
  - intros Hurl. rewrite Hurl in Hresp. exact Hresp.
  - intros url Hurl Hstatus. rewrite Hurl in Hresp. rewrite Hresp.
    unfold handler. cbv zeta.
    destruct (Z.eqb_spec (fetch_status (performFetch url)) 200); [contradiction|].
    reflexivity.
  - intros url Hurl Hstatus Hcontent Hkey. rewrite Hurl in Hresp. rewrite Hresp.
    unfold handler. cbv zeta. rewrite Hstatus, Hcontent, Hkey. reflexivity.
Qed.

Lemma verify_url_spends_on_admission_witness :
  exists response txHash,
    verify_url (viem := Sample.viem) Sample.paid Sample.fetched
      {| BASIS_WALLET_ADDRESS := Some Sample.WALLET; BASIS_KV := true;
         BASIS_PRIVATE_KEY := None |}
      Sample.request "2025-01-01T00:00:00.000Z" Sample.world0
    = (Ret response,
       snd (x402 (viem := Sample.viem) Sample.paid Sample.env (Some Sample.TX) Sample.world0))
    /\ authorization Sample.request = Some txHash
    /\ kv (snd (x402 (viem := Sample.viem) Sample.paid Sample.env (Some Sample.TX)
                  Sample.world0)) !! txHash
       = Some {| value := "used"; expiration := now Sample.world0 + 86400 |}
    /\ (args_url Sample.request = None -> response = json ValidationErrorBody 400)
    /\ (forall url,
          args_url Sample.request = Some url ->
          fetch_status (Sample.fetched url) <> 200 ->
          response = json (FetchErrorBody (fetch_error (Sample.fetched url)))
                       (fetch_status (Sample.fetched url)))
    /\ (forall url,
          args_url Sample.request = Some url ->
          fetch_status (Sample.fetched url) = 200 ->
          Js.falsy (content (Sample.fetched url)) = false ->
          Js.falsy (BASIS_PRIVATE_KEY
                      {| BASIS_WALLET_ADDRESS := Some Sample.WALLET; BASIS_KV := true;
                         BASIS_PRIVATE_KEY := None |}) = true ->
          response = json (ErrorBody "Configuration Error"
                             "BASIS_PRIVATE_KEY not configured. Cannot create witness proof."
                             None) 500).
Proof.
  apply (verify_url_spends_on_admission (viem := Sample.viem) Sample.paid Sample.fetched
           {| BASIS_WALLET_ADDRESS := Some Sample.WALLET; BASIS_KV := true;
              BASIS_PRIVATE_KEY := None |}
           Sample.request "2025-01-01T00:00:00.000Z"
           Hono.unset
           Sample.world0).
  vm_compute. reflexivity.
Defined.

(** * Properties of the URL filter and of the fetching tool *)

Lemma startsWith_app_inv (p s : string) :
  Js.startsWith p s = true -> exists rest, s = p +:+ rest.
Proof.
  revert s. induction p as [|a p IH]; intros s H.
  - exists s. reflexivity.
  - destruct s as [|b s]; [discriminate|]. cbn in H.
    apply andb_prop in H as [Hab Hrest]. apply bool_decide_eq_true_1 in Hab as ->.
    destruct (IH s Hrest) as (rest & ->). exists rest. reflexivity.
Qed.

(** A host name with a reserved head fails one of the prefix tests. *)
Lemma reserved_prefix_caught (prefix rest : string) :
  prefix ∈ Security.reserved_prefixes ->
  let h := prefix +:+ rest in
  Js.startsWith "127." h || Js.startsWith "0." h || Js.startsWith "10." h
  || Security.re_172 h || Js.startsWith "192.168." h || Js.startsWith "169.254." h
  || Security.re_224 h || Security.re_23x h = true.
Proof.
  intros Hin. unfold Security.reserved_prefixes in Hin.
  repeat (apply elem_of_cons in Hin as [->|Hin]; [reflexivity|]).
  inversion Hin.
Qed.

(** X16: [isSafeUrl] refuses what the parser refuses, every protocol
    but [http:] and [https:], and every host name that, in lower case,
    starts like an IPv4 address of the loopback, "this network",
    private (10/8, 172.16/12, 192.168/16), link-local or multicast
    ranges, whatever follows that head (so also a domain name such as
    [10.example.com]). *)
Theorem isSafeUrl_refuses_reserved (parseURL : string -> option Url) (url : string) :
  (parseURL url = None -> Security.isSafeUrl parseURL url = false)
  /\ (forall u,
        parseURL url = Some u ->
        protocol u <> "http:" -> protocol u <> "https:" ->
        Security.isSafeUrl parseURL url = false)
  /\ (forall u prefix,
        parseURL url = Some u ->
        prefix ∈ Security.reserved_prefixes ->
        Js.startsWith prefix (Js.toLowerCase (hostname u)) = true ->
        Security.isSafeUrl parseURL url = false).
Proof.
  split; [|split].
  - intros Hp. unfold Security.isSafeUrl. rewrite Hp. reflexivity.
  - intros u Hp H1 H2. unfold Security.isSafeUrl. rewrite Hp. cbn [existsb].
    apply String.eqb_neq in H1, H2. rewrite H1, H2. reflexivity.
  - intros u prefix Hp Hin Hpre.
    apply startsWith_app_inv in Hpre as (rest & Hhost).
    pose proof (reserved_prefix_caught prefix rest Hin) as Hcaught.
    cbv zeta in Hcaught. rewrite <- Hhost in Hcaught.
    unfold Security.isSafeUrl. rewrite Hp. cbv zeta.
    destruct (negb _); [reflexivity|].
    repeat match goal with
           | |- (if ?c then false else _) = false =>
               let H := fresh "Hc" in destruct c eqn:H; [reflexivity|]
           end.
    repeat match goal with
           | H : _ || _ = false |- _ => apply orb_false_elim in H as [? ?]
           end.
    repeat match goal with
           | H : ?c = false |- _ => rewrite H in Hcaught
           end.
    discriminate.
Qed.

(** X17: [isSafeUrl] lets every bracketed host name through.  The
    parser gives an IPv6 address in brackets, so no IPv6 literal is
    refused, loopback, link-local and unique-local ones included: the
    comparison with ["::1"] never holds for a parsed URL. *)
Theorem isSafeUrl_allows_bracketed_hosts (parseURL : string -> option Url)
    (url : string) (u : Url) (inner : string) :
  url <> "" ->
  parseURL url = Some u ->
  protocol u = "http:" \/ protocol u = "https:" ->
  hostname u = "[" +:+ inner ->
  Security.isSafeUrl parseURL url = true
  /\ Security.validateUrl parseURL url = Ret tt.
Proof.
  intros Hne Hp Hproto Hhost.
  assert (Hsafe : Security.isSafeUrl parseURL url = true).
  { unfold Security.isSafeUrl. rewrite Hp, Hhost.
    destruct Hproto as [-> | ->]; reflexivity. }
  split; [exact Hsafe|].
  unfold Security.validateUrl. rewrite Hp, Hsafe.
  rewrite (bool_decide_eq_false_2 _ Hne). reflexivity.
Qed.

Lemma isSafeUrl_allows_bracketed_hosts_witness :
  Security.isSafeUrl Sample3.parse "http://[::1]:8080/" = true
  /\ Security.validateUrl Sample3.parse "http://[::1]:8080/" = Ret tt.
Proof.
  apply (isSafeUrl_allows_bracketed_hosts Sample3.parse "http://[::1]:8080/"
           {| protocol := "http:"; hostname := "[::1]" |} "::1]").
  - discriminate.
  - reflexivity.
  - left. reflexivity.
  - reflexivity.
Defined.

Lemma substring_length_le (n : nat) (s : string) :
  (String.length (String.substring 0 n s) <= n)%nat.
Proof.
  revert s. induction n as [|n IH]; intros s.
  - destruct s; cbn; lia.
  - destruct s as [|c s]; cbn; [lia|]. specialize (IH s). lia.
Qed.

(** X18: [performFetch] never fetches a URL that [validateUrl] refuses.
    For an empty URL, a URL the parser refuses and a URL [isSafeUrl]
    refuses, the result is status 400 with no content and one of the
    three messages of [validateUrl], and no request goes out: the
    network is as it was before the call. *)
Theorem performFetch_refuses_before_fetching (parseURL : string -> option Url)
    (fetch : string -> Outcome HttpResponse) (replace : string -> string -> string -> string)
    (url : string) (sent : Fetcher.Network) :
  url = "" \/ Security.isSafeUrl parseURL url = false ->
  exists msg,
    Fetcher.performFetch parseURL fetch replace url sent
    = ({| fetch_status := 400; content := None; fetch_error := Some msg |}, sent)
    /\ msg ∈ ["Invalid URL: URL must be a non-empty string";
              "Invalid URL: Malformed URL format";
              "Invalid URL: URL is not allowed for security reasons"].
Proof.
  intros Hbad. unfold Fetcher.performFetch, Security.validateUrl.
  case_bool_decide as Hempty.
  { eexists. split; [reflexivity|]. apply list_elem_of_here. }
  destruct Hbad as [Hbad|Hbad]; [contradiction|].
  destruct (parseURL url) eqn:Hp.
  - rewrite Hbad. eexists. split; [reflexivity|].
    do 2 apply list_elem_of_further. apply list_elem_of_here.
  - eexists. split; [reflexivity|]. apply list_elem_of_further, list_elem_of_here.
Qed.

Lemma performFetch_refuses_before_fetching_witness :
  exists msg,
    Fetcher.performFetch Sample3.parse (Sample3.web "<p>root:x:0:0</p>") Sample3.no_match
      "http://10.0.0.5/admin" ["https://example.com"]
    = ({| fetch_status := 400; content := None; fetch_error := Some msg |},
       ["https://example.com"])
    /\ msg ∈ ["Invalid URL: URL must be a non-empty string";
              "Invalid URL: Malformed URL format";
              "Invalid URL: URL is not allowed for security reasons"].
Proof.
  apply (performFetch_refuses_before_fetching Sample3.parse
           (Sample3.web "<p>root:x:0:0</p>") Sample3.no_match "http://10.0.0.5/admin"
           ["https://example.com"]).
  right. reflexivity.
Defined.

(** X19: what [performFetch] returns.  Content comes only with status
    200 and without an error, is at most 50000 characters long, and
    costs exactly one request, for the URL given.  A result without
    content carries an error message.  For a URL that [validateUrl]
    lets through, one request goes out, and: an exception thrown by
    [fetch], or thrown while the body of an accepted response is read,
    becomes status 504 with one of three fixed sentences (the timeout
    sentence for an [AbortError]), so the text of the exception is
    never passed on; a response that is not [ok] is answered with its
    own status and "Target refused connection: " followed by its status
    text. *)
Theorem performFetch_result_shape (parseURL : string -> option Url)
    (fetch : string -> Outcome HttpResponse) (replace : string -> string -> string -> string)
    (url : string) (sent : Fetcher.Network) :
  let run := Fetcher.performFetch parseURL fetch replace url sent in
  (forall text,
     content run.1 = Some text ->
     fetch_status run.1 = 200
     /\ fetch_error run.1 = None
     /\ Js.length text <= 50000
     /\ run.2 = sent ++ [url])
  /\ (content run.1 = None -> exists msg, fetch_error run.1 = Some msg)
  /\ (forall e,
        Security.validateUrl parseURL url = Ret tt ->
        fetch url = Throw e
        \/ (exists response,
              fetch url = Ret response
              /\ ok response = true
              /\ response_text response = Throw e) ->
        exists msg,
          run = ({| fetch_status := 504; content := None; fetch_error := Some msg |},
                 sent ++ [url])
          /\ msg ∈ ["Timeout: Target took too long to respond";
                    "Network error: Failed to fetch the requested URL";
                    "Failed to fetch the requested URL"]
          /\ (name e = "AbortError" -> msg = "Timeout: Target took too long to respond"))
  /\ (forall response,
        Security.validateUrl parseURL url = Ret tt ->
        fetch url = Ret response ->
        ok response = false ->
        run = ({| fetch_status := response_status response;
                  content := None;
                  fetch_error :=
                    Some ("Target refused connection: " +:+ statusText response) |},
               sent ++ [url])).
Proof.
  assert (Hfail : forall e,
            exists msg,
              Fetcher.fetch_failure e
              = {| fetch_status := 504; content := None; fetch_error := Some msg |}
              /\ msg ∈ ["Timeout: Target took too long to respond";
                        "Network error: Failed to fetch the requested URL";
                        "Failed to fetch the requested URL"]
              /\ (name e = "AbortError"
                  -> msg = "Timeout: Target took too long to respond")).
  { intros e. unfold Fetcher.fetch_failure. cbv zeta.
    eexists. split; [reflexivity|].
    destruct (String.eqb (name e) "AbortError") eqn:Hname.
    - split; [apply list_elem_of_here|reflexivity].
    - apply String.eqb_neq in Hname.
      split; [|intros Habort; contradiction].
      repeat case_match;
        repeat first [apply list_elem_of_here | apply list_elem_of_further]. }
  cbv zeta. unfold Fetcher.performFetch, Fetcher.send.
  destruct (Security.validateUrl parseURL url) as [[]|e] eqn:Hvalid.
  - destruct (fetch url) as [response|e] eqn:Hfetch.
    + destruct (ok response) eqn:Hok; cbn [negb].
      * destruct (response_text response) as [rawText|e] eqn:Htext.
        -- cbn [fst snd content fetch_status fetch_error].
           split; [|split; [discriminate|split]].
           ++ intros text [= <-]. repeat split.
              unfold Fetcher.cleanText, Js.length.
              pose proof (substring_length_le (Z.to_nat 50000)
                            (Fetcher.trim
                               (replace "/\s+/g" " "
                                  (replace "/<[^>]+>/g" ""
                                     (replace "/<style\b[^>]*>([\s\S]*?)<\/style>/gim" ""
                                        (replace "/<script\b[^>]*>([\s\S]*?)<\/script>/gim" ""
                                           rawText)))))).
              lia.
           ++ intros e _ [Hthrow|(response' & Hret & _ & Hthrow)]; congruence.
           ++ intros response' _ Hret Hno. congruence.
        -- destruct (Hfail e) as (msg & Hmsg & Hin & Habort).
           rewrite Hmsg. cbn [fst snd content fetch_status fetch_error].
           split; [discriminate|]. split; [eauto|]. split.
           ++ intros e' _ [Hthrow|(response' & Hret & _ & Hthrow)]; [discriminate|].
              assert (e' = e) as -> by congruence.
              exists msg. auto.
           ++ intros response' _ Hret Hno. congruence.
      * cbn [fst snd content fetch_status fetch_error].
        split; [discriminate|]. split; [eauto|]. split.
        -- intros e _ [Hthrow|(response' & Hret & Hyes & _)]; congruence.
        -- intros response' _ [= <-] _. reflexivity.
    + destruct (Hfail e) as (msg & Hmsg & Hin & Habort).
      rewrite Hmsg. cbn [fst snd content fetch_status fetch_error].
      split; [discriminate|]. split; [eauto|]. split.
      * intros e' _ [[= <-]|(response' & Hret & _)]; [|discriminate].
        exists msg. auto.
      * intros response' _ Hret. discriminate.
  - cbn [fst snd content fetch_status fetch_error].
    split; [discriminate|]. split; [eauto|]. split; intros; discriminate.
Qed.

(** X20: on [/verify_url] the URL is checked after the payment is
    spent.  When the gate passes a request on and the URL of its body
    is one [isSafeUrl] refuses, the route answers 400 with the message
    of [validateUrl] and fetches nothing, and the identifier is recorded
    as "used" all the same. *)
Theorem verify_url_refused_url_spends_payment `{viem : Viem} (ledger : Ledger)
    (parseURL : string -> option Url) (fetch : string -> Outcome HttpResponse)
    (replace : string -> string -> string -> string)
    (env : Env) (req : Request) (url timestamp : string)
    (ctx : BasisContext) (sent : Fetcher.Network) (w w' : World) :
  x402 ledger env (authorization req) w = (Ret (Next ctx), w') ->
  args_url req = Some url ->
  url <> "" ->
  Security.isSafeUrl parseURL url = false ->
  exists msg txHash,
    verify_url ledger (fun u => (Fetcher.performFetch parseURL fetch replace u sent).1)
      env req timestamp w
    = (Ret (json (FetchErrorBody (Some msg)) 400), w')
    /\ msg ∈ ["Invalid URL: Malformed URL format";
              "Invalid URL: URL is not allowed for security reasons"]
    /\ (Fetcher.performFetch parseURL fetch replace url sent).2 = sent
    /\ authorization req = Some txHash
    /\ kv w' !! txHash = Some {| value := "used"; expiration := now w + 86400 |}.
Proof.
  intros Hgate Hurl Hne Hbad.
  assert (Hfetch : exists msg,
            Fetcher.performFetch parseURL fetch replace url sent
            = ({| fetch_status := 400; content := None; fetch_error := Some msg |}, sent)
            /\ msg ∈ ["Invalid URL: Malformed URL format";
                      "Invalid URL: URL is not allowed for security reasons"]).
  { unfold Fetcher.performFetch, Security.validateUrl.
    rewrite (bool_decide_eq_false_2 _ Hne).
    destruct (parseURL url) as [u|] eqn:Hp.
    - rewrite Hbad. eexists. split; [reflexivity|].
      apply list_elem_of_further, list_elem_of_here.
    - eexists. split; [reflexivity|]. apply list_elem_of_here. }
  destruct Hfetch as (msg & Hfetch & Hmsg).
  pose proof Hgate as Hgate'.
  apply x402_next in Hgate' as (h & wallet & Hh & _ & _ & Hcore).
  apply gate_core_next in Hcore as (_ & _ & _ & Hused).
  exists msg, h. split; [|rewrite Hfetch; auto].
  unfold verify_url, mbind, M_bind, bind. rewrite Hgate, Hurl.
  unfold mret, M_ret, ret, handler. cbv zeta. rewrite Hfetch. reflexivity.
Qed.

Lemma verify_url_refused_url_spends_payment_witness :
  exists msg txHash,
    verify_url (viem := Sample.viem) Sample.paid
      (fun u => (Fetcher.performFetch Sample3.parse (Sample3.web "<p>root:x:0:0</p>")
                   Sample3.no_match u []).1)
      Sample.env Sample3.internal_request "2025-01-01T00:00:00.000Z" Sample.world0
    = (Ret (json (FetchErrorBody (Some msg)) 400),
       snd (x402 (viem := Sample.viem) Sample.paid Sample.env (Some Sample.TX) Sample.world0))
    /\ msg ∈ ["Invalid URL: Malformed URL format";
              "Invalid URL: URL is not allowed for security reasons"]
    /\ (Fetcher.performFetch Sample3.parse (Sample3.web "<p>root:x:0:0</p>")
          Sample3.no_match "http://10.0.0.5/admin" []).2 = []
    /\ authorization Sample3.internal_request = Some txHash
    /\ kv (snd (x402 (viem := Sample.viem) Sample.paid Sample.env (Some Sample.TX)
                  Sample.world0)) !! txHash
       = Some {| value := "used"; expiration := now Sample.world0 + 86400 |}.
Proof.
  apply (verify_url_refused_url_spends_payment (viem := Sample.viem) Sample.paid
           Sample3.parse (Sample3.web "<p>root:x:0:0</p>") Sample3.no_match
           Sample.env Sample3.internal_request "http://10.0.0.5/admin"
           "2025-01-01T00:00:00.000Z"
           Hono.unset
           []
           Sample.world0).
  - vm_compute. reflexivity.
  - reflexivity.
  - discriminate.
  - reflexivity.
Defined.

(** X21: a page with nothing left after cleaning.  When the gate passes
    a request on, the URL is allowed, the page is fetched and its
    cleaned text is empty, the route answers with status 200 and a body
    that holds neither a proof nor an error message; no certificate is
    signed for the spent payment, and the one request for the page has
    gone out. *)
Theorem verify_url_empty_page `{viem : Viem} (ledger : Ledger)
    (parseURL : string -> option Url) (fetch : string -> Outcome HttpResponse)
    (replace : string -> string -> string -> string)
    (env : Env) (req : Request) (url rawText timestamp : string)
    (response : HttpResponse) (ctx : BasisContext) (sent : Fetcher.Network)
    (w w' : World) :
  x402 ledger env (authorization req) w = (Ret (Next ctx), w') ->
  args_url req = Some url ->
  Security.validateUrl parseURL url = Ret tt ->
  fetch url = Ret response ->
  ok response = true ->
  response_text response = Ret rawText ->
  Fetcher.cleanText replace rawText = "" ->
  verify_url ledger (fun u => (Fetcher.performFetch parseURL fetch replace u sent).1)
    env req timestamp w
  = (Ret (json (FetchErrorBody None) 200), w')
  /\ (Fetcher.performFetch parseURL fetch replace url sent).2 = sent ++ [url].
Proof.
  intros Hgate Hurl Hvalid Hfetch Hok Htext Hclean.
  unfold verify_url, mbind, M_bind, bind. rewrite Hgate, Hurl.
  unfold mret, M_ret, ret, handler, Fetcher.performFetch, Fetcher.send. cbv zeta.
  rewrite Hvalid, Hfetch, Hok, Htext, Hclean. split; reflexivity.
Qed.

Lemma verify_url_empty_page_witness :
  verify_url (viem := Sample.viem) Sample.paid
    (fun u => (Fetcher.performFetch Sample3.parse (Sample3.web "   ") Sample3.no_match u []).1)
    Sample.env Sample.request "2025-01-01T00:00:00.000Z" Sample.world0
  = (Ret (json (FetchErrorBody None) 200),
     snd (x402 (viem := Sample.viem) Sample.paid Sample.env (Some Sample.TX) Sample.world0))
  /\ (Fetcher.performFetch Sample3.parse (Sample3.web "   ") Sample3.no_match
        "https://example.com" []).2 = [] ++ ["https://example.com"].
Proof.
  apply (verify_url_empty_page (viem := Sample.viem) Sample.paid
           Sample3.parse (Sample3.web "   ") Sample3.no_match
           Sample.env Sample.request "https://example.com" "   "
           "2025-01-01T00:00:00.000Z"
           {| ok := true; response_status := 200; statusText := "OK";
              response_text := Ret "   " |}
           Hono.unset
           []
           Sample.world0).
  - vm_compute. reflexivity.
  - reflexivity.
  - reflexivity.
  - reflexivity.
  - reflexivity.
  - reflexivity.
  - vm_compute. reflexivity.
Defined.

(** ** The timestamping tool and its handler *)

Section HashProperties.
Context `{viem : Viem}.
Variable isHex : string -> bool.

(** X22 ([timestampEvent], [validateHashFormat]): the two format checks
    of the hash tool agree.  [validateHashFormat] accepts a string
    exactly when [timestampEvent] takes it as a ready-made hash, and the
    receipt then carries the string itself, with no original data. *)
Theorem validateHashFormat_matches_timestampEvent (h registeredAt : string) :
  HashTool.validateHashFormat isHex h = true <->
  HashTool.timestampEvent isHex h true registeredAt
  = Ret {| event_hash := h; registered_at := registeredAt; original_data := None |}.
Proof.
  unfold HashTool.validateHashFormat, HashTool.timestampEvent.
  destruct h as [|a h']; [cbn; split; discriminate|].
  replace (Js.length (String a h') =? 0) with false
    by (symmetry; apply Z.eqb_neq; unfold Js.length; cbn [String.length]; lia).
  cbn [String.eqb orb].
  destruct (Js.startsWith "0x" (String a h')),
           (isHex (String a h')),
           (Js.length (String a h') =? 66);
    cbn; split; intros; try discriminate; reflexivity.
Qed.

(** X23 (the [/timestamp] handler over [timestampEvent]): a ready-made
    hash of the wrong format is answered with a Timestamp Error, and the
    status depends on which check failed: 400 for a missing prefix or a
    wrong length, but 500 for a string that has the prefix and is not
    hexadecimal, since the handler looks for the words of the other two
    messages only. *)
Theorem timestamp_malformed_hash_status (env : Env)
    (data registeredAt nonce proofTimestamp : string) :
  data <> "" ->
  HashTool.validateHashFormat isHex data = false ->
  exists msg,
    HashTool.timestamp_handler isHex env data true registeredAt nonce proofTimestamp
    = (if Js.startsWith "0x" data && negb (isHex data) then 500 else 400,
       HashError "Timestamp Error" msg).
Proof.
  intros Hdata Hbad.
  unfold HashTool.validateHashFormat in Hbad.
  unfold HashTool.timestamp_handler, HashTool.timestampEvent.
  destruct data as [|a d']; [congruence|].
  replace (Js.length (String a d') =? 0) with false
    by (symmetry; apply Z.eqb_neq; unfold Js.length; cbn [String.length]; lia).
  cbn [String.eqb orb].
  destruct (Js.startsWith "0x" (String a d')); cbn [negb andb].
  - destruct (isHex (String a d')); cbn [negb andb].
    + destruct (Js.length (String a d') =? 66); [discriminate|].
      cbn [negb mbind Outcome_bind].
      eexists. unfold Js.or_default, Error. cbn [message].
      rewrite bool_decide_eq_false_2 by discriminate.
      f_equal.
      replace (Js.includes "Invalid hash" _) with true by reflexivity.
      rewrite orb_true_r. reflexivity.
    + eexists. reflexivity.
  - eexists. reflexivity.
Qed.

End HashProperties.

Lemma timestamp_malformed_hash_status_witness :
  exists msg,
    HashTool.timestamp_handler (viem := Sample.viem) Sample4.isHex Sample.env "0xzz" true
      "2025-01-01T00:00:00.000Z" "nonce" "2025-01-01T00:00:00.000Z"
    = (500, HashError "Timestamp Error" msg).
Proof.
  apply (timestamp_malformed_hash_status (viem := Sample.viem) Sample4.isHex Sample.env "0xzz").
  - discriminate.
  - reflexivity.
Defined.

(** ** The cache worker *)

Section CacheProperties.
Context `{viem : Viem}.
Variable key_issue : string -> string.

Lemma key_schema_nonempty (key : string) :
  Cache.key_schema key = true -> key <> "".
Proof.
  unfold Cache.key_schema. intros Hk ->. discriminate.
Qed.

Lemma setSchema_ttl (b : SetBody) :
  Cache.setSchema b = true -> 0 < default 3600 (body_ttl b).
Proof.
  unfold Cache.setSchema. intros [_ Httl]%andb_true_iff.
  destruct (body_ttl b); cbn; lia.
Qed.

Lemma mock_x402_accepted (env : Env) (authHeader : option string) (w : World) :
  header_accepted authHeader = true ->
  Mock.x402 env authHeader w = (Ret (Next {| wallet_address := None; tx_hash := None |}), w).
Proof.
  intros Hacc. unfold Mock.x402. rewrite Hacc. reflexivity.
Qed.

(** The store write of an admitted, well-formed [/set]. *)
Lemma set_handler_stores (env : CacheEnv) (b : SetBody) (timestamp : string) (w : World) :
  MEMORY_KV env = true ->
  succeeds 0 w ->
  exists reply w',
    Cache.set_handler env b timestamp w = (Ret reply, w')
    /\ kv w' = <[body_key b := {| value := Cache.serialize (body_value b);
                                  expiration := now w + default 3600 (body_ttl b) |}]> (kv w)
    /\ now w' = now w
    /\ faults w' = tail (faults w)
    /\ (BASIS_PRIVATE_KEY (bindings env) = None \/ BASIS_PRIVATE_KEY (bindings env) = Some ""
        -> exists msg, reply = FromHandler 500 (CacheError "Configuration Error" msg))
    /\ (forall pk e, BASIS_PRIVATE_KEY (bindings env) = Some pk -> pk <> "" ->
          privateKeyToAccount pk = Throw e ->
          reply = FromHandler 500
                    (CacheError "Internal Server Error"
                       (Js.or_default (Some (message e)) "Failed to store data in cache")))
    /\ (forall pk account, BASIS_PRIVATE_KEY (bindings env) = Some pk -> pk <> "" ->
          privateKeyToAccount pk = Ret account ->
          exists proof,
            reply = FromHandler 200
                      (CacheSetPacket (body_key b) "stored" (default 3600 (body_ttl b)) proof)).
Proof.
  intros Hkv Hput.
  unfold Cache.set_handler, try_catch, Cache.setCache, KV.put, KV.op.
  rewrite Hkv. cbn [negb].
  unfold mbind, M_bind, bind, mret, M_ret, ret.
  assert (Hhead : head (faults w) <> Some true) by (rewrite head_lookup; exact Hput).
  destruct (head (faults w)) as [[|]|] eqn:Hf; try congruence.
  all: cbn [stored_key stored_status stored_ttl].
  all: destruct (BASIS_PRIVATE_KEY (bindings env)) as [pk|] eqn:Hpk; cbn [Js.falsy].
  all: try destruct (bool_decide (pk = "")) eqn:Hempty.
  all: try (apply bool_decide_eq_true_1 in Hempty).
  all: try (apply bool_decide_eq_false_1 in Hempty).
  all: unfold lift, signProofOfCustody; cbn [Js.falsy default].
  all: try rewrite (bool_decide_eq_false_2 _ Hempty).
  all: try change (id pk) with pk.
  all: try (unfold mbind, Outcome_bind; destruct (privateKeyToAccount pk) as [account|e] eqn:Hacct).
  all: do 2 eexists; (split; [reflexivity|]).
  all: cbn [kv now faults set_kv KV.after set_faults emit].
  all: (split; [reflexivity|]); (split; [reflexivity|]); (split; [reflexivity|]).
  all: repeat split.
  all: try (intros [?|?]; try congruence; eexists; reflexivity).
  all: try (intros pk' e' Hpk' Hne Hthrow; try congruence).
  all: try (intros pk' a' Hpk' Hne Hret; try congruence).
  all: try (eexists; reflexivity).
  all: try (replace pk' with pk in * by congruence; congruence).
Qed.


(** What an admitted [/get] with a well-formed key answers when the
    store and the signer work. *)
Lemma get_handler_reads (env : CacheEnv) (key pk timestamp : string) (account : Account)
    (w : World) :
  MEMORY_KV env = true ->
  Cache.key_schema key = true ->
  BASIS_PRIVATE_KEY (bindings env) = Some pk ->
  pk <> "" ->
  privateKeyToAccount pk = Ret account ->
  succeeds 0 w ->
  Cache.get_handler key_issue env (Some key) timestamp w
  = (Ret match KV.visible (kv w) (now w) key with
         | Some v =>
             FromHandler 200
               (CacheGetPacket key (Some v) true
                  (certify "basis-cache-node-01" timestamp
                     (key +:+ ":" +:+ v +:+ ":" +:+ timestamp) account))
         | None => FromHandler 404 (CacheError "Not Found" ("No data found for key: " +:+ key))
         end,
     KV.after (EvKvGet key) w).
Proof.
  intros Hkv Hkey Hpk Hne Hacct Hget.
  pose proof (key_schema_nonempty key Hkey) as Hk.
  unfold Cache.get_handler. cbn [Js.falsy default].
  change (id key) with key.
  rewrite (bool_decide_eq_false_2 _ Hk), Hkey. cbn [negb].
  unfold try_catch, Cache.getCache, KV.get, KV.op.
  rewrite Hkv, Hpk. cbn [negb Js.falsy].
  rewrite (bool_decide_eq_false_2 _ Hne).
  unfold mbind, M_bind, bind, mret, M_ret, ret.
  assert (Hhead : head (faults w) <> Some true) by (rewrite head_lookup; exact Hget).
  destruct (head (faults w)) as [[|]|] eqn:Hf; try congruence.
  all: cbn [kv now KV.after set_faults emit found got_value got_key].
  all: destruct (KV.visible (kv w) (now w) key) as [v|]; cbn [negb default].
  all: try reflexivity.
  all: unfold lift, signDataIntegrity; cbn [Js.falsy default].
  all: rewrite (bool_decide_eq_false_2 _ Hne).
  all: change (id pk) with pk; rewrite Hacct; reflexivity.
Qed.

(** X24 (the [/set] and [/get] routes over [setCache] and [getCache]):
    a value stored through [/set] is what [/get] returns for the same
    key until its lifetime is over, and from then on [/get] answers 404.
    The lifetime is the body's [ttl], one hour when there is none.
    Lifetimes under a minute, which the platform's store refuses, are
    left aside. *)
Theorem cache_set_then_get (env : CacheEnv) (sreq : SetRequest) (greq : GetRequest)
    (b : SetBody) (pk stored_at read_at : string) (account : Account) (d : Z) (w : World) :
  header_accepted (set_authorization sreq) = true ->
  header_accepted (get_authorization greq) = true ->
  MEMORY_KV env = true ->
  BASIS_PRIVATE_KEY (bindings env) = Some pk ->
  pk <> "" ->
  privateKeyToAccount pk = Ret account ->
  set_body sreq = Some b ->
  Cache.setSchema b = true ->
  query_key greq = Some (body_key b) ->
  60 <= default 3600 (body_ttl b) ->
  succeeds 0 w ->
  succeeds 1 w ->
  0 <= d ->
  exists custody w1,
    Cache.set_route env sreq stored_at w
    = (Ret (FromHandler 200
              (CacheSetPacket (body_key b) "stored" (default 3600 (body_ttl b)) custody)), w1)
    /\ exists reply w2,
         Cache.get_route key_issue env greq read_at (advance d w1) = (Ret reply, w2)
         /\ if d <? default 3600 (body_ttl b)
            then exists integrity,
                reply = FromHandler 200
                          (CacheGetPacket (body_key b) (Some (Cache.serialize (body_value b)))
                             true integrity)
            else reply = FromHandler 404
                           (CacheError "Not Found"
                              ("No data found for key: " +:+ body_key b)).
Proof.
  intros Hs Hg Hkv Hpk Hne Hacct Hbody Hschema Hq Hminute Hput Hget Hd.
  destruct (set_handler_stores env b stored_at w Hkv Hput)
    as (reply & w1 & Hrun & Hstore & Hnow & Hfaults & _ & _ & Hok).
  destruct (Hok pk account Hpk Hne Hacct) as [custody ->].
  exists custody, w1. split.
  - unfold Cache.set_route, mbind, M_bind, bind.
    rewrite (mock_x402_accepted _ _ _ Hs), Hbody, Hschema. exact Hrun.
  - assert (Hkey : Cache.key_schema (body_key b) = true).
    { unfold Cache.setSchema in Hschema. apply andb_true_iff in Hschema. tauto. }
    assert (Hget' : succeeds 0 (advance d w1)).
    { unfold succeeds in *. cbn [advance faults]. rewrite Hfaults, lookup_tail. exact Hget. }
    do 2 eexists. split.
    + unfold Cache.get_route, mbind, M_bind, bind.
      rewrite (mock_x402_accepted _ _ _ Hg), Hq.
      apply (get_handler_reads env _ pk read_at account _ Hkv Hkey Hpk Hne Hacct Hget').
    + cbn [advance kv now]. unfold KV.visible.
      rewrite Hstore, lookup_insert_eq, Hnow. cbn [expiration value].
      replace (now w + d <? now w + default 3600 (body_ttl b))
        with (d <? default 3600 (body_ttl b))
        by (destruct (Z.ltb_spec d (default 3600 (body_ttl b)));
            symmetry; [apply Z.ltb_lt | apply Z.ltb_ge]; lia).
      destruct (d <? default 3600 (body_ttl b)); [eexists|]; reflexivity.
Qed.

(** X25 (the [/set] handler): the handler writes to the store before it
    looks at the signing key.  When the key is missing, empty or refused
    by the signer, the caller gets a 500 and no receipt, yet the value
    stays in the store, readable for its whole lifetime. *)
Theorem cache_set_keeps_value_without_receipt (env : CacheEnv) (sreq : SetRequest)
    (b : SetBody) (timestamp : string) (w : World) :
  header_accepted (set_authorization sreq) = true ->
  MEMORY_KV env = true ->
  set_body sreq = Some b ->
  Cache.setSchema b = true ->
  succeeds 0 w ->
  (forall proof,
     signProofOfCustody (body_key b) (Cache.serialize (body_value b))
       (BASIS_PRIVATE_KEY (bindings env)) timestamp <> Ret proof) ->
  exists err msg w',
    Cache.set_route env sreq timestamp w = (Ret (FromHandler 500 (CacheError err msg)), w')
    /\ forall d, 0 <= d < default 3600 (body_ttl b) ->
         KV.visible (kv w') (now w' + d) (body_key b) = Some (Cache.serialize (body_value b)).
Proof.
  intros Hs Hkv Hbody Hschema Hput Hsign.
  pose proof (setSchema_ttl b Hschema) as Httl.
  destruct (set_handler_stores env b timestamp w Hkv Hput)
    as (reply & w' & Hrun & Hstore & Hnow & _ & Hnone & Hthrow & Hok).
  assert (Hreply : exists err msg, reply = FromHandler 500 (CacheError err msg)).
  { destruct (BASIS_PRIVATE_KEY (bindings env)) as [pk|] eqn:Hpk.
    - destruct (decide (pk = "")) as [->|Hne].
      + destruct Hnone as [msg ->]; [right; reflexivity|]. eauto.
      + unfold signProofOfCustody in Hsign. cbn [Js.falsy default] in Hsign.
        rewrite (bool_decide_eq_false_2 _ Hne) in Hsign.
        change (id pk) with pk in Hsign.
        destruct (privateKeyToAccount pk) as [account|e] eqn:Hacct.
        * exfalso. eapply Hsign. reflexivity.
        * rewrite (Hthrow pk e eq_refl Hne Hacct). eauto.
    - destruct Hnone as [msg ->]; [left; reflexivity|]. eauto. }
  destruct Hreply as (err & msg & ->).
  exists err, msg, w'. split.
  - unfold Cache.set_route, mbind, M_bind, bind.
    rewrite (mock_x402_accepted _ _ _ Hs), Hbody, Hschema. exact Hrun.
  - intros d Hd. unfold KV.visible.
    rewrite Hstore, lookup_insert_eq, Hnow. cbn [expiration value].
    replace (now w + d <? now w + default 3600 (body_ttl b)) with true
      by (symmetry; apply Z.ltb_lt; lia).
    reflexivity.
Qed.

(** X26 (the [/get] route over [getCache]): reading never writes.
    Whatever the request and whatever fails on the way, [/get] leaves
    every entry of the store and the clock as they were. *)
Theorem cache_get_never_writes (env : CacheEnv) (greq : GetRequest) (timestamp : string)
    (w : World) :
  let w' := (Cache.get_route key_issue env greq timestamp w).2 in
  kv w' = kv w /\ now w' = now w.
Proof.
  unfold Cache.get_route, Mock.x402, mbind, M_bind, bind, mret, M_ret, ret.
  destruct (header_accepted (get_authorization greq)); cbn [negb]; [|split; reflexivity].
  unfold Cache.get_handler.
  destruct (Js.falsy (query_key greq)); [split; reflexivity|].
  destruct (negb (Cache.key_schema _)); [split; reflexivity|].
  unfold try_catch, Cache.getCache, KV.get, KV.op, lift,
    mbind, M_bind, bind, mret, M_ret, ret.
  destruct (negb (MEMORY_KV env)); [split; reflexivity|].
  destruct (head (faults w)) as [[|]|];
    cbn [found got_value got_key negb];
    try (split; reflexivity).
  all: destruct (KV.visible _ _ _); cbn [negb]; try (split; reflexivity).
  all: destruct (Js.falsy (BASIS_PRIVATE_KEY (bindings env))); try (split; reflexivity).
  all: destruct (signDataIntegrity _ _ _ _); split; reflexivity.
Qed.

(** X27 (the [/set] route): nothing is issued to the store unless the
    request passed the gate's header check, its body passed the schema
    and the namespace is bound. *)
Theorem cache_set_writes_only_valid_requests (env : CacheEnv) (sreq : SetRequest)
    (timestamp : string) (w : World) :
  (Cache.set_route env sreq timestamp w).2 = w
  \/ (header_accepted (set_authorization sreq) = true
      /\ MEMORY_KV env = true
      /\ exists b, set_body sreq = Some b /\ Cache.setSchema b = true).
Proof.
  unfold Cache.set_route, Mock.x402, mbind, M_bind, bind, mret, M_ret, ret.
  destruct (header_accepted (set_authorization sreq)); cbn [negb]; [|left; reflexivity].
  destruct (set_body sreq) as [b|]; [|left; reflexivity].
  destruct (Cache.setSchema b) eqn:Hschema; [|left; reflexivity].
  unfold Cache.set_handler, try_catch.
  destruct (MEMORY_KV env); cbn [negb]; [|left; reflexivity].
  right. eauto.
Qed.

End CacheProperties.

Lemma cache_set_then_get_witness :
  exists custody w1,
    Cache.set_route (viem := Sample.viem) Sample4.cache_env Sample4.set_request
      "2025-01-01T00:00:00.000Z" Sample.world0
    = (Ret (FromHandler 200 (CacheSetPacket "agent:42:plan" "stored" 120 custody)), w1)
    /\ exists reply w2,
         Cache.get_route (viem := Sample.viem) Sample4.key_issue Sample4.cache_env
           Sample4.get_request "2025-01-01T00:01:00.000Z" (advance 60 w1) = (Ret reply, w2)
         /\ exists integrity,
              reply = FromHandler 200
                        (CacheGetPacket "agent:42:plan" (Some "buy milk") true integrity).
Proof.
  eapply (cache_set_then_get (viem := Sample.viem) Sample4.key_issue Sample4.cache_env
            Sample4.set_request Sample4.get_request Sample4.plan
            _ "2025-01-01T00:00:00.000Z" "2025-01-01T00:01:00.000Z"
            _ 60 Sample.world0).
  all: try reflexivity.
  all: try discriminate.
  all: try (cbn; lia).
Defined.

Lemma cache_set_keeps_value_without_receipt_witness :
  exists err msg w',
    Cache.set_route (viem := Sample.viem) Sample4.cache_env_no_key Sample4.set_request
      "2025-01-01T00:00:00.000Z" Sample.world0
    = (Ret (FromHandler 500 (CacheError err msg)), w')
    /\ forall d, 0 <= d < 120 ->
         KV.visible (kv w') (now w' + d) "agent:42:plan" = Some "buy milk".
Proof.
  apply (cache_set_keeps_value_without_receipt (viem := Sample.viem)
           Sample4.cache_env_no_key Sample4.set_request Sample4.plan
           "2025-01-01T00:00:00.000Z"
           Sample.world0).
  all: try reflexivity.
  all: try discriminate.
Defined.
